(** * Shallow embedding of HDXer's MaxEnt reweighting (src/HDXer/reweighting.py)

    Floating-point arrays are modelled over the reals, with one extra value
    [NaN] for numpy's [nan]: arithmetic propagates it, [NaN * 0 = NaN], and
    [NaN != 0] is true, as in IEEE 754.  Overflow to infinity is not
    modelled (the reals do not overflow).  A numpy array of shape
    [n_segments, n_residues, n_times] is a list of lists of lists in that
    order; a [n_residues, n_frames] matrix is a list of rows.

    Python's semantics of the methods is a state and exception monad over
    the [MaxEnt] object and the module's global namespace: a raised
    exception keeps every mutation made before it, as in Python. *)

From Stdlib Require Import Reals Lra Lia String List Bool ZArith.
Import ListNotations.
Open Scope R_scope.
Open Scope string_scope.

(** ** Floating-point values with NaN *)

Inductive num : Type :=
| Fin (r : R)
| NaN.

Definition nlift2 (f : R -> R -> R) (a b : num) : num :=
  match a, b with
  | Fin x, Fin y => Fin (f x y)
  | _, _ => NaN
  end.

Definition nadd := nlift2 Rplus.
Definition nsub := nlift2 Rminus.
Definition nmul := nlift2 Rmult.
Definition nopp (a : num) : num :=
  match a with Fin x => Fin (- x) | NaN => NaN end.
Definition nsq (a : num) : num := nmul a a.

(** Division; a zero divisor gives [NaN] (numpy gives [nan] for [0/0] and
    an infinity otherwise; only [0/0] is reached in this development). *)
Definition ndiv (a b : num) : num :=
  match a, b with
  | Fin x, Fin y => if Req_EM_T y 0 then NaN else Fin (x / y)
  | _, _ => NaN
  end.

Definition nexp (a : num) : num :=
  match a with Fin x => Fin (exp x) | NaN => NaN end.

(** [np.sqrt] of a negative number is [nan]. *)
Definition nsqrt (a : num) : num :=
  match a with
  | Fin x => if Rlt_dec x 0 then NaN else Fin (sqrt x)
  | NaN => NaN
  end.

(** [x != 0] on a float: true for [nan]. *)
Definition ne0 (a : num) : bool :=
  match a with
  | Fin x => if Req_EM_T x 0 then false else true
  | NaN => true
  end.

Definition is_nan (a : num) : bool :=
  match a with NaN => true | Fin _ => false end.

(** Multiplication by a boolean filter entry ([True] is 1, [False] is 0). *)
Definition mask (a : num) (b : bool) : num :=
  nmul a (Fin (if b then 1 else 0)).

(** [np.divide(a, b, out=np.full(shape, np.nan), where=c)] at one entry. *)
Definition divide_where (a b : num) (c : bool) : num :=
  if c then ndiv a b else NaN.

(** [np.sum] of a vector: NaN-propagating. *)
Definition nsum (l : list num) : num := fold_right nadd (Fin 0) l.

Fixpoint finite_entries (l : list num) : list R :=
  match l with
  | [] => []
  | Fin x :: t => x :: finite_entries t
  | NaN :: t => finite_entries t
  end.

Definition sumR (l : list R) : R := fold_right Rplus 0 l.

(** [np.nanmean]: mean of the non-NaN entries, [nan] when there is none. *)
Definition nanmean (l : list num) : num :=
  match finite_entries l with
  | [] => NaN
  | ys => Fin (sumR ys / INR (length ys))
  end.

(** [np.nansum]: sum of the non-NaN entries, 0 when there is none. *)
Definition nansum (l : list num) : num := Fin (sumR (finite_entries l)).

(** [np.mean]: NaN-propagating, [nan] on an empty vector. *)
Definition nmean (l : list num) : num :=
  match l with
  | [] => NaN
  | _ => ndiv (nsum l) (Fin (INR (length l)))
  end.

(** ** Array helpers (numpy broadcasting on arrays of matching shape) *)

Fixpoint zipWith {A B C : Type} (f : A -> B -> C) (l1 : list A) (l2 : list B)
  : list C :=
  match l1, l2 with
  | a :: t1, b :: t2 => f a b :: zipWith f t1 t2
  | _, _ => []
  end.

Definition arr3 := list (list (list num)).
Definition filt3 := list (list (list bool)).

Definition map3 (f : num -> num) (a : arr3) : arr3 := map (map (map f)) a.
Definition zip3 {A B C : Type} (f : A -> B -> C)
  (a : list (list (list A))) (b : list (list (list B))) : list (list (list C)) :=
  zipWith (zipWith (zipWith f)) a b.

Definition flatten3 {A : Type} (a : list (list (list A))) : list A :=
  concat (map (@concat A) a).

(** [np.sum(m, axis=0)] of a [rows x n] matrix. *)
Definition sum_axis0 (n : nat) (m : list (list num)) : list num :=
  fold_right (zipWith nadd) (repeat (Fin 0) n) m.

(** Column [t] of a [rows x n_times] matrix, columns as lists. *)
Definition columns (ntimes : nat) (m : list (list num)) : list (list num) :=
  map (fun t => map (fun row => nth t row NaN) m) (seq 0 ntimes).

(** [np.repeat(v[:, np.newaxis], ntimes, axis=1)[np.newaxis].repeat(nsegs, axis=0)]. *)
Definition broadcast_res (nsegs ntimes : nat) (v : list num) : arr3 :=
  repeat (map (fun x => repeat x ntimes) v) nsegs.

(** Shape [n_residues] and [n_times] of a filter array. *)
Definition shape1 (f : filt3) : nat := length (hd [] f).
Definition shape2 (f : filt3) : nat := length (hd [] (hd [] f)).

(** ** Python values, dictionaries and exceptions *)

#[local] Set Warnings "-register-all".

Inductive value : Type :=
| VNone
| VBool (b : bool)
| VNum (x : num)
| VInt (z : Z)
| VStr (s : string)
| VList (l : list value)
| VVec (v : list num)
| VMat (m : list (list num))
| VArr3 (a : arr3)
| VFilt (f : filt3).

(** A Python [dict] with string keys. *)
Definition dict := list (string * value).

Fixpoint dict_lookup (k : string) (d : dict) : option value :=
  match d with
  | [] => None
  | (k', v) :: t => if String.eqb k k' then Some v else dict_lookup k t
  end.

Definition dict_set (k : string) (v : value) (d : dict) : dict :=
  (k, v) :: filter (fun kv => negb (String.eqb k (fst kv))) d.

(** [d.update(e)]. *)
Definition dict_update (d e : dict) : dict :=
  fold_right (fun kv acc => dict_set (fst kv) (snd kv) acc) d e.

Inductive exn : Type :=
| KeyError (k : string)
| NameError (n : string)
| UnboundLocalError (n : string)
| AttributeError (n : string)
| TypeError
| ValueError
| HDX_Error (msg : string)
(** not a Python exception: the model's fuel for a [while] loop ran out *)
| Diverge.

(** [UnboundLocalError] is a subclass of [NameError]. *)
Definition is_NameError (e : exn) : bool :=
  match e with NameError _ | UnboundLocalError _ => true | _ => false end.

Inductive res (A : Type) : Type :=
| Ok (a : A)
| Raise (e : exn).
Arguments Ok {A} a.
Arguments Raise {A} e.

(** ** The MaxEnt object, the module namespace and numpy's random state *)

Record maxent : Type := mkMaxEnt {
  methodparams : dict;
  runparams : option dict;      (** [None]: attribute not yet set *)
  runvalues : option dict;
  mcsamplvalues : option dict
}.

Record world : Type := mkWorld {
  self : maxent;
  globals : dict;               (** module-level names bound at run time *)
  rng : nat -> R;               (** successive [np.random.random_sample()] draws *)
  rng_pos : nat
}.

Definition M (A : Type) : Type := world -> world * res A.

Definition ret {A} (a : A) : M A := fun w => (w, Ok a).
Definition raise {A} (e : exn) : M A := fun w => (w, Raise e).
Definition bind {A B} (m : M A) (f : A -> M B) : M B :=
  fun w => match m w with
           | (w', Ok a) => f a w'
           | (w', Raise e) => (w', Raise e)
           end.

Notation "x <- m ;; k" := (bind m (fun x => k))
  (at level 61, m at next level, right associativity).
Notation "m ;;; k" := (bind m (fun _ => k))
  (at level 61, right associativity).

Definition modify_self (f : maxent -> maxent) : M unit :=
  fun w => (mkWorld (f (self w)) (globals w) (rng w) (rng_pos w), Ok tt).

Definition set_global (k : string) (v : value) : M unit :=
  fun w => (mkWorld (self w) (dict_set k v (globals w)) (rng w) (rng_pos w), Ok tt).

(** [np.random.random_sample()]. *)
Definition random_sample : M R :=
  fun w => (mkWorld (self w) (globals w) (rng w) (S (rng_pos w)), Ok (rng w (rng_pos w))).

Definition from_opt {A} (o : option A) (e : exn) : M A :=
  match o with Some a => ret a | None => raise e end.

(** Attribute access and dictionary subscripting. *)
Definition get_self : M maxent := fun w => (w, Ok (self w)).

Definition mp_get (k : string) : M value :=
  s <- get_self ;; from_opt (dict_lookup k (methodparams s)) (KeyError k).
Definition rp_get (k : string) : M value :=
  s <- get_self ;; d <- from_opt (runparams s) (AttributeError "runparams") ;;
  from_opt (dict_lookup k d) (KeyError k).
Definition rv_get (k : string) : M value :=
  s <- get_self ;; d <- from_opt (runvalues s) (AttributeError "runvalues") ;;
  from_opt (dict_lookup k d) (KeyError k).
Definition mc_get (k : string) : M value :=
  s <- get_self ;; d <- from_opt (mcsamplvalues s) (AttributeError "mcsamplvalues") ;;
  from_opt (dict_lookup k d) (KeyError k).

Definition mp_set (k : string) (v : value) : M unit :=
  modify_self (fun s => mkMaxEnt (dict_set k v (methodparams s)) (runparams s)
                                 (runvalues s) (mcsamplvalues s)).
Definition rv_set (k : string) (v : value) : M unit :=
  s <- get_self ;; d <- from_opt (runvalues s) (AttributeError "runvalues") ;;
  modify_self (fun s => mkMaxEnt (methodparams s) (runparams s)
                                 (Some (dict_set k v d)) (mcsamplvalues s)).
Definition mc_set (k : string) (v : value) : M unit :=
  s <- get_self ;; d <- from_opt (mcsamplvalues s) (AttributeError "mcsamplvalues") ;;
  modify_self (fun s => mkMaxEnt (methodparams s) (runparams s)
                                 (runvalues s) (Some (dict_set k v d))).

(** Reading a bare name inside a function of the module: locals first
    (passed explicitly by the caller), then the module globals. *)
Definition load_global (n : string) : M value :=
  fun w => match dict_lookup n (globals w) with
           | Some v => (w, Ok v)
           | None => (w, Raise (NameError n))
           end.

(** Dynamic type checks of the values read. *)
Definition as_num (v : value) : M num :=
  match v with
  | VNum x => ret x
  | VInt z => ret (Fin (IZR z))
  | VBool b => ret (Fin (if b then 1 else 0))
  | _ => raise TypeError
  end.
Definition as_bool (v : value) : M bool :=
  match v with VBool b => ret b | VInt z => ret (negb (Z.eqb z 0)) | _ => raise TypeError end.
Definition as_int (v : value) : M Z :=
  match v with VInt z => ret z | VBool b => ret (if b then 1%Z else 0%Z) | _ => raise TypeError end.
Definition as_vec (v : value) : M (list num) :=
  match v with VVec l => ret l | _ => raise TypeError end.
Definition as_mat (v : value) : M (list (list num)) :=
  match v with VMat m => ret m | _ => raise TypeError end.
Definition as_arr3 (v : value) : M arr3 :=
  match v with VArr3 a => ret a | _ => raise TypeError end.
Definition as_filt (v : value) : M filt3 :=
  match v with VFilt f => ret f | _ => raise TypeError end.

(** [len(v)]. *)
Definition py_len (v : value) : M nat :=
  match v with
  | VList l => ret (length l)
  | VStr s => ret (String.length s)
  | VVec l => ret (length l)
  | VMat m => ret (length m)
  | VArr3 a => ret (length a)
  | VFilt f => ret (length f)
  | _ => raise TypeError
  end.

(** ** Forward model (the array expressions of the methods below) *)

Definition ncols (m : list (list num)) : nat := length (hd [] m).

Definition scale (c : num) (m : list (list num)) : list (list num) :=
  map (map (nmul c)) m.

(** [lambdas[:, np.newaxis] * m] for one lambda per row of [m]; numpy
    raises on other lengths (or broadcasts a single lambda), where this
    list version stops at the shorter list. *)
Definition rowscale (l : list num) (m : list (list num)) : list (list num) :=
  zipWith (fun x row => map (nmul x) row) l m.

(** [radou_bh * hbonds + radou_bc * contacts] for matrices of the same
    shape. *)
Definition protection_factor (bc bh : num) (contacts hbonds : list (list num))
  : list (list num) :=
  zipWith (zipWith nadd) (scale bh hbonds) (scale bc contacts).

(** [np.sum(lambdas[:, np.newaxis] * lnpi, axis=0)]. *)
Definition bias_plain (lambdas : list num) (lnpi : list (list num)) : list num :=
  sum_axis0 (ncols lnpi) (rowscale lambdas lnpi).

(** [np.sum(lambdas_c[:, np.newaxis] * contacts + lambdas_h[:, np.newaxis] * hbonds, axis=0)]. *)
Definition bias_mc (lc lh : list num) (contacts hbonds : list (list num)) : list num :=
  sum_axis0 (ncols contacts)
    (zipWith (zipWith nadd) (rowscale lc contacts) (rowscale lh hbonds)).

(** [iniweights * np.exp(biasfactor)]. *)
Definition unnormalised_weights (ini bias : list num) : list num :=
  zipWith (fun i b => nmul i (nexp b)) ini bias.

(** [w / np.sum(w)]. *)
Definition normalise (w : list num) : list num :=
  map (fun x => ndiv x (nsum w)) w.

(** [np.sum(w * m, axis=1)]: per-residue weighted sum over frames. *)
Definition weighted_sum (w : list num) (m : list (list num)) : list num :=
  map (fun row => nsum (zipWith nmul w row)) m.

(** [np.sqrt(np.sum(w * lnpi**2, axis=1) - ave_lnpi**2)]. *)
Definition sigma_of (w : list num) (lnpi : list (list num)) (ave : list num)
  : list num :=
  map nsqrt (zipWith nsub (weighted_sum w (map (map nsq) lnpi)) (map nsq ave)).

(** [1 - np.exp(np.divide(minuskt_filtered, np.exp(denom), where=denom != 0))]
    with [denom = ave_lnpi * segfilters]. *)
Definition residue_dfracs (mkt ave : arr3) (sf : filt3) : arr3 :=
  zip3 (fun m d => nsub (Fin 1) (nexp (divide_where m (nexp d) (ne0 d))))
       mkt (zip3 mask ave sf).

(** [np.nanmean(a, axis=1)] of an [S x R x T] array. *)
Definition nanmean_axis1 (ntimes : nat) (a : arr3) : list (list num) :=
  map (fun seg => map nanmean (columns ntimes seg)) a.

(** [_seg[:, np.newaxis, :].repeat(segfilters.shape[1], axis=1)]. *)
Definition segment_dfracs (sf : filt3) (resd : arr3) : arr3 :=
  map (fun row => repeat row (shape1 sf)) (nanmean_axis1 (shape2 sf) resd).

(** [np.sum((segd * segfilters - exp_dfrac_filtered)**2) / n_datapoints]. *)
Definition mse (segd : arr3) (sf : filt3) (expf : arr3) (ndp : num) : num :=
  ndiv (nsum (flatten3 (zip3 (fun a e => nsq (nsub a e)) (zip3 mask segd sf) expf)))
       ndp.

(** ** [MaxEnt.update_lnpi_and_weights] *)

Definition update_lnpi_and_weights : M unit :=
  bc <- (v <- mp_get "radou_bc" ;; as_num v) ;;
  contacts <- (v <- rv_get "contacts" ;; as_mat v) ;;
  bh <- (v <- mp_get "radou_bh" ;; as_num v) ;;
  hbonds <- (v <- rv_get "hbonds" ;; as_mat v) ;;
  rv_set "lnpi" (VMat (protection_factor bc bh contacts hbonds)) ;;;
  domc <- (v <- mp_get "do_mcsampl" ;; as_bool v) ;;
  biasfactor <-
    (if domc then
       lc <- (v <- mc_get "lambdas_c" ;; as_vec v) ;;
       lh <- (v <- mc_get "lambdas_h" ;; as_vec v) ;;
       ret (bias_mc lc lh contacts hbonds)
     else
       lambdas <- (v <- rv_get "lambdas" ;; as_vec v) ;;
       lnpi <- (v <- rv_get "lnpi" ;; as_mat v) ;;
       ret (bias_plain lambdas lnpi)) ;;
  ini <- (v <- rv_get "iniweights" ;; as_vec v) ;;
  rv_set "currweights" (VVec (unnormalised_weights ini biasfactor)) ;;;
  w0 <- (v <- rv_get "currweights" ;; as_vec v) ;;
  rv_set "currweights" (VVec (normalise w0)) ;;;
  w <- (v <- rv_get "currweights" ;; as_vec v) ;;
  lnpi <- (v <- rv_get "lnpi" ;; as_mat v) ;;
  rv_set "ave_lnpi" (VVec (weighted_sum w lnpi)) ;;;
  curriter <- (v <- rv_get "curriter" ;; as_int v) ;;
  (if Z.eqb curriter 1 then
     ave <- (v <- rv_get "ave_lnpi" ;; as_vec v) ;;
     rv_set "sigma_lnpi" (VVec (sigma_of w lnpi ave)) ;;;
     sig <- (v <- rv_get "sigma_lnpi" ;; as_vec v) ;;
     rv_set "ave_sigma_lnpi" (VNum (nmean sig))
   else ret tt) ;;;
  ave <- (v <- rv_get "ave_lnpi" ;; as_vec v) ;;
  ntimes <- (v <- rp_get "times" ;; py_len v) ;;
  rv_set "ave_lnpi" (VMat (map (fun x => repeat x ntimes) ave)) ;;;
  ave2 <- (v <- rv_get "ave_lnpi" ;; as_mat v) ;;
  nsegs <- (v <- rv_get "n_segs" ;; as_int v) ;;
  rv_set "ave_lnpi" (VArr3 (repeat ave2 (Z.to_nat nsegs))).

(** ** [MaxEnt.update_dfracs_and_mse] *)

Definition update_dfracs_and_mse : M unit :=
  ave <- (v <- rv_get "ave_lnpi" ;; as_arr3 v) ;;
  sf <- (v <- rv_get "segfilters" ;; as_filt v) ;;
  mkt <- (v <- rv_get "minuskt_filtered" ;; as_arr3 v) ;;
  rv_set "curr_residue_dfracs" (VArr3 (residue_dfracs mkt ave sf)) ;;;
  resd <- (v <- rv_get "curr_residue_dfracs" ;; as_arr3 v) ;;
  rv_set "curr_segment_dfracs" (VArr3 (segment_dfracs sf resd)) ;;;
  segd <- (v <- rv_get "curr_segment_dfracs" ;; as_arr3 v) ;;
  expf <- (v <- rv_get "exp_dfrac_filtered" ;; as_arr3 v) ;;
  ndp <- (v <- rv_get "n_datapoints" ;; as_num v) ;;
  rv_set "curr_MSE" (VNum (mse segd sf expf ndp)).

(** ** Python-level arithmetic on values (numpy broadcasting of scalars) *)

(** A Python [bool] is an [int] in arithmetic. *)
Definition py_num (v : value) : value :=
  match v with VBool b => VInt (if b then 1%Z else 0%Z) | _ => v end.

Definition py_binop (f : num -> num -> num) (a b : value) : M value :=
  match py_num a, py_num b with
  | VNum x, VNum y => ret (VNum (f x y))
  | VInt x, VNum y => ret (VNum (f (Fin (IZR x)) y))
  | VNum x, VInt y => ret (VNum (f x (Fin (IZR y))))
  | VInt x, VInt y => ret (VNum (f (Fin (IZR x)) (Fin (IZR y))))
  | VNum x, VVec l => ret (VVec (map (f x) l))
  | VVec l, VNum y => ret (VVec (map (fun e => f e y) l))
  | VInt x, VVec l => ret (VVec (map (f (Fin (IZR x))) l))
  | VVec l, VInt y => ret (VVec (map (fun e => f e (Fin (IZR y))) l))
  | VVec l, VVec m => ret (VVec (zipWith f l m))
  | VNum x, VArr3 a => ret (VArr3 (map3 (f x) a))
  | VArr3 a, VNum y => ret (VArr3 (map3 (fun e => f e y) a))
  | VInt x, VArr3 a => ret (VArr3 (map3 (f (Fin (IZR x))) a))
  | VArr3 a, VInt y => ret (VArr3 (map3 (fun e => f e (Fin (IZR y))) a))
  | VArr3 a, VArr3 c => ret (VArr3 (zip3 f a c))
  | _, _ => raise TypeError
  end.

Definition py_add := py_binop nadd.
Definition py_sub := py_binop nsub.
Definition py_mul := py_binop nmul.
Definition py_div := py_binop ndiv.

(** Reading a local variable of a Python function: the function's local
    namespace holds its parameters and the names it has assigned so far. *)
Definition load_local (n : string) (locals : dict) : M value :=
  from_opt (dict_lookup n locals) (UnboundLocalError n).

(** ** The helpers local to [MaxEnt.sample_parameters_MC] *)

(** [adding_function] returned by [update_sampled_totals].  Its body assigns
    [total_bc] (by [+=]) without a [nonlocal] declaration, so [total_bc] is
    a local name of [adding_function], whose locals are its parameters only. *)
Definition adding_function (bc bh mse resfracs lambdas : value) : M (list value) :=
  let locals := [("bc", bc); ("bh", bh); ("mse", mse); ("resfracs", resfracs);
                 ("lambdas", lambdas)] in
  t <- load_local "total_bc" locals ;; x <- load_local "bc" locals ;;
  total_bc <- py_add t x ;;
  let locals := dict_set "total_bc" total_bc locals in
  t <- load_local "total_bh" locals ;; x <- load_local "bh" locals ;;
  total_bh <- py_add t x ;;
  let locals := dict_set "total_bh" total_bh locals in
  t <- load_local "total_mse" locals ;; x <- load_local "mse" locals ;;
  total_mse <- py_add t x ;;
  let locals := dict_set "total_mse" total_mse locals in
  t <- load_local "total_resfracs" locals ;; x <- load_local "resfracs" locals ;;
  total_resfracs <- py_add t x ;;
  let locals := dict_set "total_resfracs" total_resfracs locals in
  t <- load_local "total_lambdas_bc" locals ;; x <- py_mul bc lambdas ;;
  total_lambdas_bc <- py_add t x ;;
  let locals := dict_set "total_lambdas_bc" total_lambdas_bc locals in
  t <- load_local "total_lambdas_bh" locals ;; x <- py_mul bh lambdas ;;
  total_lambdas_bh <- py_add t x ;;
  ret [total_bc; total_bh; total_mse; total_resfracs; total_lambdas_bc; total_lambdas_bh].

(** [adding_function] returned by [update_sampled_totals_nolambda]; same scoping. *)
Definition adding_function_nolambda (bc bh mse resfracs : value) : M (list value) :=
  let locals := [("bc", bc); ("bh", bh); ("mse", mse); ("resfracs", resfracs)] in
  t <- load_local "total_bc" locals ;; x <- load_local "bc" locals ;;
  total_bc <- py_add t x ;;
  let locals := dict_set "total_bc" total_bc locals in
  t <- load_local "total_bh" locals ;; x <- load_local "bh" locals ;;
  total_bh <- py_add t x ;;
  let locals := dict_set "total_bh" total_bh locals in
  t <- load_local "total_mse" locals ;; x <- load_local "mse" locals ;;
  total_mse <- py_add t x ;;
  let locals := dict_set "total_mse" total_mse locals in
  t <- load_local "total_resfracs" locals ;; x <- load_local "resfracs" locals ;;
  total_resfracs <- py_add t x ;;
  ret [total_bc; total_bh; total_mse; total_resfracs].

(** [update_sampled_averages] / [update_sampled_averages_nolambda]: every
    total divided by [param_maxiters]. *)
Definition update_sampled_averages (totals : list value) : M (list value) :=
  pm <- mp_get "param_maxiters" ;;
  fold_right (fun t acc => a <- py_div t pm ;; r <- acc ;; ret (a :: r))
             (ret []) totals.

(** [x < 0] on a float (false for [nan]). *)
Definition lt0 (a : num) : bool :=
  match a with Fin x => if Rlt_dec x 0 then true else false | NaN => false end.

(** [a < b] and [a > b] on floats (false when either is [nan]). *)
Definition nlt (a b : num) : bool :=
  match a, b with
  | Fin x, Fin y => if Rlt_dec x y then true else false
  | _, _ => false
  end.
Definition ngt (a b : num) : bool := nlt b a.

(** [while cur < 0: cur = body], with fuel. *)
Fixpoint while_negative (fuel : nat) (cur : num) (body : M num) : M num :=
  match fuel with
  | O => raise Diverge
  | S f => if lt0 cur then (x <- body ;; while_negative f x body) else ret cur
  end.

(** One perturbation [b + (np.random.random_sample() - 0.5) * param_stepfactor * range]. *)
Definition perturb (b : num) (range_key : string) : M num :=
  u <- random_sample ;;
  psf <- (v <- mp_get "param_stepfactor" ;; as_num v) ;;
  rg <- (v <- mp_get range_key ;; as_num v) ;;
  ret (nadd b (nmul (nmul (nsub (Fin u) (Fin (1/2))) psf) rg)).

Definition generate_trial_betas (fuel : nat) (bc bh : num) : M (num * num) :=
  trial_radou_bh <- while_negative fuel (Fin (-1)) (perturb bh "radou_bhrange") ;;
  trial_radou_bc <- while_negative fuel (Fin (-1)) (perturb bc "radou_bcrange") ;;
  ret (bc, bh).

Definition calc_trial_ave_lnpi (ave_contacts ave_hbonds : list num) (bc bh : num)
  : M arr3 :=
  let trial := zipWith nadd (map (nmul bc) ave_contacts) (map (nmul bh) ave_hbonds) in
  ntimes <- (v <- rp_get "times" ;; py_len v) ;;
  nsegs <- (v <- rv_get "n_segs" ;; as_int v) ;;
  ret (broadcast_res (Z.to_nat nsegs) ntimes trial).

Definition calc_trial_dfracs (ave : arr3) : M (arr3 * arr3 * num) :=
  sf <- (v <- rv_get "segfilters" ;; as_filt v) ;;
  mkt <- (v <- rv_get "minuskt_filtered" ;; as_arr3 v) ;;
  let resd := residue_dfracs mkt ave sf in
  let segd := segment_dfracs sf resd in
  expf <- (v <- rv_get "exp_dfrac_filtered" ;; as_arr3 v) ;;
  ndp <- (v <- rv_get "n_datapoints" ;; as_num v) ;;
  ret (resd, segd, mse segd sf expf ndp).

(** The MC acceptance value [n_segs * len(times) * MSE / (2.0 * mc_refvar)]. *)
Definition acc_val (nsegs : Z) (ntimes : nat) (m refvar : num) : num :=
  ndiv (nmul (nmul (Fin (IZR nsegs)) (Fin (INR ntimes))) m) (nmul (Fin 2) refvar).

(** [np.exp(-(trial_acc_val - orig_acc_val))]. *)
Definition move_prob (nsegs : Z) (ntimes : nat) (trial curr refvar : num) : num :=
  nexp (nopp (nsub (acc_val nsegs ntimes trial refvar) (acc_val nsegs ntimes curr refvar))).

(** The acceptance decision of one inner step: immediate when the trial MSE
    is lower, otherwise [move_prob > np.random.random_sample()]. *)
Definition mc_accept (trial curr : num) : M bool :=
  if nlt trial curr then ret true
  else
    nsegs <- (v <- rv_get "n_segs" ;; as_int v) ;;
    ntimes <- (v <- rp_get "times" ;; py_len v) ;;
    refvar <- (v <- mp_get "mc_refvar" ;; as_num v) ;;
    u <- random_sample ;;
    ret (ngt (move_prob nsegs ntimes trial curr refvar) (Fin u)).

Definition nabs (a : num) : num :=
  match a with Fin x => Fin (Rabs x) | NaN => NaN end.

(** [np.sum(g, axis=1)[:, 0]] of a boolean [S x R x T] array: per segment,
    the number of residues whose filter is set at the first time. *)
Definition first_time_counts (g : filt3) : list num :=
  map (fun seg => Fin (INR (length (filter (fun row => nth 0 row false) seg)))) g.

(** [calc_lambdas_in_sampleloop].  The divisor reads the bare name
    [segfilters], which is not a local of this function nor of
    [sample_parameters_MC]: Python looks it up in the module globals.
    A zero count gives [NaN] here where numpy gives [nan] or an infinity. *)
Definition calc_lambdas_in_sampleloop (ave segd : arr3) : M (list num) :=
  sf <- (v <- rv_get "segfilters" ;; as_filt v) ;;
  expf <- (v <- rv_get "exp_dfrac_filtered" ;; as_arr3 v) ;;
  mkt <- (v <- rv_get "minuskt_filtered" ;; as_arr3 v) ;;
  let denom := zip3 mask ave sf in
  let dev := zip3 nsub (zip3 mask segd sf) expf in
  let e1 := zip3 (fun m d => nexp (divide_where m (nexp d) (ne0 d))) mkt denom in
  let e2 := zip3 (fun m d => divide_where (nopp m) (nexp d) (ne0 d)) mkt denom in
  let lhs := map (map nsum) (zip3 nmul (zip3 nmul dev e1) e2) in
  g <- (v <- load_global "segfilters" ;; as_filt v) ;;
  let q := zipWith (fun row c => map (fun x => ndiv x c) row) lhs (first_time_counts g) in
  ret (map nansum (columns (ncols q) q)).

(** Local variables of the sampling loop: [curr_radou_bc], [curr_radou_bh]
    and the running sums ([None] while they are still unassigned). *)
Record mcloop : Type := mkLoop {
  curr_radou_bc : num;
  curr_radou_bh : num;
  sums : option (list value)
}.

Definition read_sums (st : mcloop) : M (list value) :=
  from_opt (sums st) (UnboundLocalError "radou_bc_sum").

(** One iteration [curr_mc_iter] of the main sampling loop. *)
Definition mc_iteration (fuel : nat) (ave_contacts ave_hbonds : list num)
  (curr_mc_iter : nat) (st : mcloop) : M mcloop :=
  tb <- generate_trial_betas fuel (curr_radou_bc st) (curr_radou_bh st) ;;
  let (trial_radou_bc, trial_radou_bh) := tb in
  trial_ave_lnpi <- calc_trial_ave_lnpi ave_contacts ave_hbonds trial_radou_bc trial_radou_bh ;;
  td <- calc_trial_dfracs trial_ave_lnpi ;;
  let '(trial_residue_dfracs, trial_segment_dfracs, trial_MSE) := td in
  curr <- (v <- rv_get "curr_MSE" ;; as_num v) ;;
  accepted <- mc_accept trial_MSE curr ;;
  cb <- (if accepted then
           rv_set "curr_MSE" (VNum trial_MSE) ;;;
           rv_set "ave_lnpi" (VArr3 trial_ave_lnpi) ;;;
           rv_set "curr_segment_dfracs" (VArr3 trial_segment_dfracs) ;;;
           rv_set "curr_residue_dfracs" (VArr3 trial_residue_dfracs) ;;;
           ret (trial_radou_bc, trial_radou_bh)
         else ret (curr_radou_bc st, curr_radou_bh st)) ;;
  let (cbc, cbh) := cb in
  dorw <- (v <- mp_get "do_reweight" ;; as_bool v) ;;
  if dorw then
    ave <- (v <- rv_get "ave_lnpi" ;; as_arr3 v) ;;
    segd <- (v <- rv_get "curr_segment_dfracs" ;; as_arr3 v) ;;
    curr_lambdas <- calc_lambdas_in_sampleloop ave segd ;;
    (match curr_mc_iter with O => ret tt | S _ => read_sums st ;;; ret tt end) ;;;
    m <- rv_get "curr_MSE" ;;
    r <- rv_get "curr_residue_dfracs" ;;
    totals <- adding_function (VNum cbc) (VNum cbh) m r (VVec curr_lambdas) ;;
    ret (mkLoop cbc cbh (Some totals))
  else
    (match curr_mc_iter with O => ret tt | S _ => read_sums st ;;; ret tt end) ;;;
    m <- rv_get "curr_MSE" ;;
    r <- rv_get "curr_residue_dfracs" ;;
    totals <- adding_function_nolambda (VNum cbc) (VNum cbh) m r ;;
    ret (mkLoop cbc cbh (Some totals)).

Fixpoint mc_loop (fuel : nat) (ave_contacts ave_hbonds : list num)
  (iters : list nat) (st : mcloop) : M mcloop :=
  match iters with
  | [] => ret st
  | i :: rest =>
      st' <- mc_iteration fuel ave_contacts ave_hbonds i st ;;
      mc_loop fuel ave_contacts ave_hbonds rest st'
  end.

(** [smoothing_rate]: [mc_equilsteps / sqrt(mc_equilsteps * (mc_equilsteps + curriter))]
    when [mc_equilsteps > 0], else [1.0]. *)
Definition smoothing_rate_of (equil curriter : num) : num :=
  if ngt equil (Fin 0) then ndiv equil (nsqrt (nmul equil (nadd equil curriter)))
  else Fin 1.

(** [old * (1.0 - s) + s * (ave / param_maxiters)]. *)
Definition blend (old : value) (s : num) (ave pm : value) : M value :=
  a <- py_mul old (VNum (nsub (Fin 1) s)) ;;
  b <- py_div ave pm ;;
  c <- py_mul (VNum s) b ;;
  py_add a c.

(** Lines after the sampling loop: averages, blending, lambda update. *)
Definition finish_sampling (s : num) (st : mcloop) : M unit :=
  dorw <- (v <- mp_get "do_reweight" ;; as_bool v) ;;
  totals <- read_sums st ;;
  aves <- update_sampled_averages totals ;;
  avs <- (match dorw, aves with
          | true, [bc_a; bh_a; mse_a; rf_a; lc_a; lh_a] =>
              mc_set "ave_MClambdas_c" lc_a ;;; mc_set "ave_MClambdas_h" lh_a ;;;
              ret (bc_a, bh_a, mse_a, rf_a)
          | false, [bc_a; bh_a; mse_a; rf_a] => ret (bc_a, bh_a, mse_a, rf_a)
          | _, _ => raise ValueError
          end) ;;
  let '(radou_bc_ave, radou_bh_ave, MSE_ave, residue_dfracs_ave) := avs in
  pm <- mp_get "param_maxiters" ;;
  old <- mp_get "radou_bh" ;; nv <- blend old s radou_bh_ave pm ;; mp_set "radou_bh" nv ;;;
  old <- mp_get "radou_bc" ;; nv <- blend old s radou_bc_ave pm ;; mp_set "radou_bc" nv ;;;
  old <- mc_get "MC_MSE_ave" ;; nv <- blend old s MSE_ave pm ;; mc_set "MC_MSE_ave" nv ;;;
  old <- mc_get "MC_resfracs_ave" ;; nv <- blend old s residue_dfracs_ave pm ;;
  mc_set "MC_resfracs_ave" nv ;;;
  if dorw then
    fh <- mc_get "final_MClambdas_h" ;; ah <- mc_get "ave_MClambdas_h" ;;
    lnh <- blend fh s ah pm ;;
    fc <- mc_get "final_MClambdas_c" ;; ac <- mc_get "ave_MClambdas_c" ;;
    lnc <- blend fc s ac pm ;;
    bh <- mp_get "radou_bh" ;; bc <- mp_get "radou_bc" ;;
    x <- py_div lnh bh ;; y <- py_div lnc bc ;; z <- py_add x y ;;
    lambdanew <- py_mul (VNum (Fin (1/2))) z ;;
    gamma <- rp_get "gamma" ;;
    v <- py_mul gamma lnh ;; mc_set "final_MClambdas_h" v ;;;
    v <- py_mul gamma lnc ;; mc_set "final_MClambdas_c" v ;;;
    fh' <- mc_get "final_MClambdas_h" ;; fc' <- mc_get "final_MClambdas_c" ;;
    x <- py_div fh' bh ;; y <- py_div fc' bc ;; z <- py_add x y ;;
    v <- py_mul (VNum (Fin (1/2))) z ;; mc_set "final_MClambdas" v ;;;
    ln <- as_vec lambdanew ;;
    fin <- (v <- mc_get "final_MClambdas" ;; as_vec v) ;;
    let ave_deviation := ndiv (nsum (map nabs ln)) (Fin (INR (length (filter ne0 fin)))) in
    sf <- (v <- mp_get "stepfactor" ;; as_num v) ;;
    g <- as_num gamma ;;
    asig <- (v <- rv_get "ave_sigma_lnpi" ;; as_num v) ;;
    rv_set "curr_lambda_stepsize" (VNum (ndiv sf (nmul (nmul g ave_deviation) asig))) ;;;
    step <- (v <- rv_get "curr_lambda_stepsize" ;; as_num v) ;;
    lc <- mc_get "lambdas_c" ;; fc'' <- mc_get "final_MClambdas_c" ;;
    a <- py_mul lc (VNum (nsub (Fin 1) step)) ;; b <- py_mul (VNum step) fc'' ;;
    v <- py_add a b ;; mc_set "lambdas_c" v ;;;
    lh <- mc_get "lambdas_h" ;; fh'' <- mc_get "final_MClambdas_h" ;;
    a <- py_mul lh (VNum (nsub (Fin 1) step)) ;; b <- py_mul (VNum step) fh'' ;;
    v <- py_add a b ;; mc_set "lambdas_h" v ;;;
    l <- rv_get "lambdas" ;; f <- mc_get "final_MClambdas" ;;
    a <- py_mul l (VNum (nsub (Fin 1) step)) ;; b <- py_mul (VNum step) f ;;
    v <- py_add a b ;; rv_set "lambdas" v
  else ret tt.

(** ** [MaxEnt.sample_parameters_MC] ([fuel] bounds each resampling loop) *)

Definition sample_parameters_MC (fuel : nat) : M unit :=
  equil <- (v <- mp_get "mc_equilsteps" ;; as_num v) ;;
  s <- (if ngt equil (Fin 0) then
          cur <- (v <- rv_get "curriter" ;; as_num v) ;;
          ret (smoothing_rate_of equil cur)
        else ret (Fin 1)) ;;
  w <- (v <- rv_get "currweights" ;; as_vec v) ;;
  contacts <- (v <- rv_get "contacts" ;; as_mat v) ;;
  hbonds <- (v <- rv_get "hbonds" ;; as_mat v) ;;
  let ave_contacts := weighted_sum w contacts in
  let ave_hbonds := weighted_sum w hbonds in
  m <- rv_get "curr_MSE" ;; mc_set "MC_MSE_ave" m ;;;
  r <- rv_get "curr_residue_dfracs" ;; mc_set "MC_resfracs_ave" r ;;;
  bh <- (v <- mp_get "radou_bh" ;; as_num v) ;;
  bc <- (v <- mp_get "radou_bc" ;; as_num v) ;;
  pm <- (v <- mp_get "param_maxiters" ;; as_int v) ;;
  st <- mc_loop fuel ave_contacts ave_hbonds (seq 0 (Z.to_nat pm)) (mkLoop bc bh None) ;;
  finish_sampling s st.

(** ** [MaxEnt.__init__]: default method parameters *)

Definition default_methodparams : dict :=
  [("do_reweight", VBool true);
   ("do_params", VBool true);
   ("do_mcmin", VBool false);
   ("do_mcsampl", VBool false);
   ("mc_refvar", VNum (Fin (3/100)));
   ("mc_equilsteps", VInt (-1));
   ("radou_bc", VNum (Fin (35/100)));
   ("radou_bh", VNum (Fin 2));
   ("radou_bcrange", VNum (Fin (3/2)));
   ("radou_bhrange", VNum (Fin 16));
   ("tolerance", VNum (Fin (/ 10 ^ 10)));
   ("maxiters", VInt (10 ^ 6));
   ("param_maxiters", VInt (10 ^ 2));
   ("stepfactor", VNum (Fin (/ 10 ^ 5)));
   ("stepfactor_scaling", VNum (Fin (1005/1000)));
   ("param_stepfactor", VNum (Fin (/ 10)));
   ("temp", VNum (Fin 300));
   ("random_initial", VBool false)].

Definition MaxEnt_init (extra_params : dict) : M unit :=
  let maxentparams := dict_update default_methodparams extra_params in
  t <- from_opt (dict_lookup "temp" maxentparams) (KeyError "temp") ;;
  kT <- py_mul t (VNum (Fin (8314598 / 10 ^ 9))) ;;
  modify_self (fun _ => mkMaxEnt (dict_set "kT" kT maxentparams) None None None).

(** Module-level names of [HDXer.reweighting] after import. *)
Definition VObj := VStr.
Definition module_globals : dict :=
  map (fun n => (n, VObj n))
      ["np"; "argparse"; "os"; "sys"; "glob"; "deepcopy"; "pickle";
       "HDX_Error"; "read_contacts_hbonds"; "read_kints_segments"; "MaxEnt"].

(** ** [MaxEnt.set_run_params] *)

Definition set_runparams (d : dict) : M unit :=
  modify_self (fun s => mkMaxEnt (methodparams s) (Some d) (runvalues s) (mcsamplvalues s)).

Definition set_default (k : string) (v : value) (d : dict) : dict :=
  match dict_lookup k d with Some _ => d | None => dict_set k v d end.

Definition set_run_params (gamma : value) (runobj restart : option value)
  (paramdict : dict) : M unit :=
  let rp := [("gamma", gamma)] in
  match restart, runobj with
  | Some _, _ => set_runparams (dict_set "from_restart" (VBool true) rp)
  | None, Some _ => set_runparams (dict_set "from_calchdx" (VBool true) rp)
  | None, None =>
      let rp := dict_update rp paramdict in
      let rp := set_default "hbonds_prefix" (VStr "Hbonds_") rp in
      let rp := set_default "contacts_prefix" (VStr "Contacts_") rp in
      let rp := set_default "out_prefix" (VStr "reweighting_") rp in
      set_runparams rp
  end.

(** ** [MaxEnt.setup_no_runobj]

    The readers of [HDXer.reweighting_functions] are external collaborators
    (spec, section 1): they are parameters of the setup, returning either
    their arrays or the exception they raise. *)

Record readers : Type := mkReaders {
  read_contacts_hbonds : value -> value -> value -> res (list (list num) * list (list num) * value);
  read_kints_segments : value -> value -> nat -> value -> value -> res (arr3 * arr3 * filt3)
}.

Definition lift {A} (r : res A) : M A :=
  match r with Ok a => ret a | Raise e => raise e end.

Fixpoint draws (n : nat) : M (list num) :=
  match n with
  | O => ret []
  | S k => u <- random_sample ;; r <- draws k ;; ret (Fin u :: r)
  end.

Definition count_true (f : filt3) : nat := length (filter (fun b => b) (flatten3 f)).

Definition zero_mcsamplvalues (nres : nat) : dict :=
  [("final_MClambdas", VVec (repeat (Fin 0) nres));
   ("final_MClambdas_h", VVec (repeat (Fin 0) nres));
   ("final_MClambdas_c", VVec (repeat (Fin 0) nres));
   ("ave_MClambdas_h", VVec (repeat (Fin 0) nres));
   ("ave_MClambdas_c", VVec (repeat (Fin 0) nres));
   ("lambdas_c", VVec (repeat (Fin 0) nres));
   ("lambdas_h", VVec (repeat (Fin 0) nres));
   ("MC_MSE_ave", VNum (Fin 0));
   ("MC_resfracs_ave", VNum (Fin 0))].

(** [%6.3f], [%5.2e] and the like accept a real number: a float, an int,
    a bool or an array of one element; anything else raises [TypeError]. *)
Definition format_real (v : value) : M unit :=
  match v with
  | VNum _ | VInt _ | VBool _ | VVec [_] | VMat [[_]] | VArr3 [[[_]]] | VFilt [[[_]]] => ret tt
  | _ => raise TypeError
  end.

(** Writing [initial_params.dat]: the file name formats [out_prefix] with
    [%s], the line of values formats [temp] with [%s], [nframes] with [%d]
    and the others with float conversions.  The file contents are not
    modelled. *)
Definition write_initial_params : M unit :=
  rp_get "out_prefix" ;;;
  temp <- mp_get "temp" ;; kT <- mp_get "kT" ;; tol <- mp_get "tolerance" ;;
  bc <- mp_get "radou_bc" ;; bh <- mp_get "radou_bh" ;; gamma <- rp_get "gamma" ;;
  sf <- mp_get "stepfactor" ;;
  format_real kT ;;; format_real tol ;;; format_real bc ;;; format_real bh ;;;
  format_real gamma ;;; format_real sf.

(** [state.rand(nframes)] of a freshly seeded [RandomState] is modelled as
    [nframes] successive draws. *)
Definition setup_no_runobj (L : readers) (folderlist kint_file expt_file_path times : value)
  : M unit :=
  modify_self (fun s => mkMaxEnt (methodparams s) (runparams s) (Some []) (mcsamplvalues s)) ;;;
  cp <- rp_get "contacts_prefix" ;; hp <- rp_get "hbonds_prefix" ;;
  ch <- lift (read_contacts_hbonds L folderlist cp hp) ;;
  let '(contacts, hbonds, sorted_resids) := ch in
  let nresidues := length hbonds in
  ks <- lift (read_kints_segments L kint_file expt_file_path nresidues times sorted_resids) ;;
  let '(minuskt, exp_dfrac, segfilters) := ks in
  let lambdas := repeat (Fin 0) nresidues in
  domc <- (v <- mp_get "do_mcsampl" ;; as_bool v) ;;
  (if domc then
     modify_self (fun s => mkMaxEnt (methodparams s) (runparams s) (runvalues s)
                                    (Some (zero_mcsamplvalues nresidues)))
   else ret tt) ;;;
  let nframes := ncols contacts in
  write_initial_params ;;;
  ri <- (v <- mp_get "random_initial" ;; as_bool v) ;;
  iniweights <- (if ri then rp_get "out_prefix" ;;; draws nframes
                 else ret (repeat (Fin 1) nframes)) ;;
  rp_get "out_prefix" ;;; rp_get "out_prefix" ;;; rp_get "out_prefix" ;;;
  let maxentvalues :=
    [("contacts", VMat contacts); ("hbonds", VMat hbonds); ("kint", VNone);
     ("exp_dfrac", VArr3 exp_dfrac); ("segfilters", VFilt segfilters);
     ("lambdas", VVec lambdas); ("nframes", VInt (Z.of_nat nframes));
     ("iniweights", VVec iniweights);
     ("minuskt_filtered", VArr3 (zip3 (fun m b => mask (nopp m) b) minuskt segfilters));
     ("exp_dfrac_filtered", VArr3 (zip3 mask exp_dfrac segfilters));
     ("n_datapoints", VInt (Z.of_nat (count_true segfilters)));
     ("n_segs", VInt (Z.of_nat (length segfilters)));
     ("lambdamod", VNum (Fin 0)); ("deltalambdamod", VNum (Fin 0));
     ("curriter", VInt 0); ("minuskt", VArr3 minuskt)] in
  s <- get_self ;; d <- from_opt (runvalues s) (AttributeError "runvalues") ;;
  modify_self (fun s => mkMaxEnt (methodparams s) (runparams s)
                                 (Some (dict_update d maxentvalues)) (mcsamplvalues s)).

(** [MaxEnt.setup_runobj] has only a docstring. *)
Definition setup_runobj (runobj : value) : M unit := ret tt.

(** ** [MaxEnt.setup_restart]: [rstfile] is given by its unpickled content *)

Definition restart_names : list string :=
  ["contacts"; "hbonds"; "kint"; "exp_dfrac"; "segfilters"; "lambdas"; "lambdasc";
   "lambdash"; "_lambdanewaverh"; "_lambdanewaverc"; "_lambdanew"; "_lambdanewh";
   "_lambdanewc"; "chisquareav"; "nframes"; "iniweights"; "num"; "exp_df_segf";
   "normseg"; "numseg"; "lambdamod"; "deltalambdamod"; "Bc"; "Bh"; "gamma"; "ratef";
   "avesigmalnpi"; "currcount"].

Fixpoint assign_globals (names : list string) (vals : list value) : M unit :=
  match names, vals with
  | n :: ns, v :: vs => set_global n v ;;; assign_globals ns vs
  | _, _ => ret tt
  end.

Definition setup_restart (payload : list value) : M unit :=
  (if Nat.eqb (length payload) (length restart_names)
   then assign_globals restart_names payload else raise ValueError) ;;;
  rp_get "out_prefix" ;;;
  load_global "T" ;;; load_global "kT" ;;; load_global "tol" ;;;
  load_global "Bc" ;;; load_global "Bh" ;;; load_global "gamma" ;;;
  load_global "ratef" ;;; load_global "nframes" ;;;
  rp_get "out_prefix" ;;; rp_get "out_prefix" ;;; rp_get "out_prefix" ;;;
  ret tt.

(** ** [MaxEnt.run] *)

Definition try_except_KeyError {A} (m : M A) (handler : M A) : M A :=
  fun w => match m w with
           | (w', Raise (KeyError _)) => handler w'
           | r => r
           end.

Definition missing_parameters_msg : string :=
  String.append "Missing parameters to set up a reweighting run."
  (String (Ascii.ascii_of_nat 10)
  "Please ensure a restart or calc_hdx object is provided,or provide the following arguments to the run() call:data_folders, kint_file, exp_file, times").

(** [restart] is the restart file name and [restart_payload] the content
    [pickle.load(open(restart, 'rb'))] of that file. *)
Definition run (L : readers) (gamma : value) (runobj restart : option value)
  (restart_payload : list value) (run_params : dict) : M unit :=
  set_run_params gamma runobj restart run_params ;;;
  match restart with
  | None =>
      match runobj with
      | None =>
          try_except_KeyError
            (df <- rp_get "data_folders" ;; kf <- rp_get "kint_file" ;;
             ef <- rp_get "exp_file" ;; tm <- rp_get "times" ;;
             setup_no_runobj L df kf ef tm)
            (raise (HDX_Error missing_parameters_msg))
      | Some r => setup_runobj r
      end
  | Some _ => setup_restart restart_payload
  end.

(** * Properties *)

(** ** Dictionaries *)

Lemma dict_lookup_set (k k' : string) (v : value) (d : dict) :
  dict_lookup k (dict_set k' v d) =
  if String.eqb k k' then Some v else dict_lookup k d.
Proof.
  unfold dict_set; simpl.
  destruct (String.eqb k k') eqn:E; [reflexivity|].
  induction d as [|[k1 v1] t IH]; simpl; [reflexivity|].
  destruct (String.eqb k' k1) eqn:E1; simpl.
  - apply String.eqb_eq in E1; subst k1. rewrite E. exact IH.
  - destruct (String.eqb k k1); [reflexivity|exact IH].
Qed.

Lemma dict_lookup_update (k : string) (d e : dict) :
  dict_lookup k (dict_update d e) =
  match dict_lookup k e with Some v => Some v | None => dict_lookup k d end.
Proof.
  induction e as [|[k1 v1] t IH]; [reflexivity|].
  unfold dict_update in *. cbn [fold_right fst snd].
  rewrite dict_lookup_set. cbn [dict_lookup]. destruct (String.eqb k k1); [reflexivity|exact IH].
Qed.

Lemma dict_lookup_set_default (k k' : string) (v : value) (d : dict) :
  k <> k' -> dict_lookup k (set_default k' v d) = dict_lookup k d.
Proof.
  intros H. unfold set_default. destruct (dict_lookup k' d); [reflexivity|].
  rewrite dict_lookup_set. apply String.eqb_neq in H. now rewrite H.
Qed.

(** ** C5: the trial proposal *)

(** C5 (code_bug): whenever [generate_trial_betas] returns, the pair it
    returns is the current [(bc, bh)] it was given: the perturbed values
    computed by its two resampling loops are discarded. *)
Theorem generate_trial_betas_returns_current (fuel : nat) (bc bh : num) (w : world) :
  match snd (generate_trial_betas fuel bc bh w) with
  | Ok r => r = (bc, bh)
  | Raise _ => True
  end.
Proof.
  unfold generate_trial_betas, bind.
  destruct (while_negative fuel (Fin (-1)) (perturb bh "radou_bhrange") w) as [w1 [r1|e1]];
    [|exact I].
  destruct (while_negative fuel (Fin (-1)) (perturb bc "radou_bcrange") w1) as [w2 [r2|e2]];
    reflexivity || exact I.
Qed.

(** ** C7: missing mandatory setup parameters *)

Lemma rp_get_spec (k : string) (w : world) (d : dict) :
  runparams (self w) = Some d ->
  rp_get k w = (w, match dict_lookup k d with Some v => Ok v | None => Raise (KeyError k) end).
Proof.
  intros H. unfold rp_get, bind, get_self, from_opt. rewrite H. cbn [ret raise].
  destruct (dict_lookup k d); reflexivity.
Qed.

Definition fresh_runparams (gamma : value) (params : dict) : dict :=
  set_default "out_prefix" (VStr "reweighting_")
    (set_default "contacts_prefix" (VStr "Contacts_")
       (set_default "hbonds_prefix" (VStr "Hbonds_")
          (dict_update [("gamma", gamma)] params))).

Lemma fresh_runparams_lookup (gamma : value) (params : dict) (k : string) :
  k <> "out_prefix" -> k <> "contacts_prefix" -> k <> "hbonds_prefix" -> k <> "gamma" ->
  dict_lookup k (fresh_runparams gamma params) = dict_lookup k params.
Proof.
  intros H1 H2 H3 H4. unfold fresh_runparams.
  rewrite !dict_lookup_set_default by assumption.
  rewrite dict_lookup_update. cbn [dict_lookup].
  apply String.eqb_neq in H4. rewrite H4.
  destruct (dict_lookup k params); reflexivity.
Qed.

Lemma set_run_params_fresh (gamma : value) (params : dict) (w : world) :
  set_run_params gamma None None params w =
  (mkWorld (mkMaxEnt (methodparams (self w)) (Some (fresh_runparams gamma params))
                     (runvalues (self w)) (mcsamplvalues (self w)))
           (globals w) (rng w) (rng_pos w), Ok tt).
Proof. reflexivity. Qed.

(** C7: when [run] is called with neither a restart file nor a run object
    and one of [data_folders], [kint_file], [exp_file], [times] is absent
    from the run parameters, it raises [HDX_Error] and no run values have
    been set up (the method has no iteration loop to reach). *)
Theorem run_missing_setup_params_raises (L : readers) (gamma : value) (params : dict)
  (w : world) :
  (dict_lookup "data_folders" params = None \/ dict_lookup "kint_file" params = None \/
   dict_lookup "exp_file" params = None \/ dict_lookup "times" params = None) ->
  snd (run L gamma None None [] params w) = Raise (HDX_Error missing_parameters_msg) /\
  runvalues (self (fst (run L gamma None None [] params w))) = runvalues (self w).
Proof.
  intros Hmiss.
  set (w1 := mkWorld (mkMaxEnt (methodparams (self w)) (Some (fresh_runparams gamma params))
                     (runvalues (self w)) (mcsamplvalues (self w)))
           (globals w) (rng w) (rng_pos w)).
  assert (Hrp : runparams (self w1) = Some (fresh_runparams gamma params)) by reflexivity.
  assert (Hrun : run L gamma None None [] params w =
                 (w1, Raise (HDX_Error missing_parameters_msg))).
  { unfold run. unfold bind at 1. rewrite set_run_params_fresh. fold w1.
    unfold try_except_KeyError, bind.
    rewrite (rp_get_spec "data_folders" w1 _ Hrp).
    rewrite fresh_runparams_lookup by discriminate.
    destruct (dict_lookup "data_folders" params) as [df|] eqn:Edf; [|reflexivity].
    rewrite (rp_get_spec "kint_file" w1 _ Hrp).
    rewrite fresh_runparams_lookup by discriminate.
    destruct (dict_lookup "kint_file" params) as [kf|] eqn:Ekf; [|reflexivity].
    rewrite (rp_get_spec "exp_file" w1 _ Hrp).
    rewrite fresh_runparams_lookup by discriminate.
    destruct (dict_lookup "exp_file" params) as [ef|] eqn:Eef; [|reflexivity].
    rewrite (rp_get_spec "times" w1 _ Hrp).
    rewrite fresh_runparams_lookup by discriminate.
    destruct (dict_lookup "times" params) as [tm|] eqn:Etm; [|reflexivity].
    exfalso. destruct Hmiss as [H|[H|[H|H]]]; congruence. }
  rewrite Hrun. split; reflexivity.
Qed.

Definition example_readers : readers :=
  mkReaders (fun _ _ _ => Ok ([], [], VList []))
            (fun _ _ _ _ _ => Ok ([], [], [])).

Definition init_world : world :=
  mkWorld (mkMaxEnt default_methodparams None None None) module_globals (fun _ => 0) 0.

Lemma run_missing_setup_params_raises_witness :
  dict_lookup "times" [("data_folders", VList [VStr "run1"]); ("kint_file", VStr "kint.dat");
                       ("exp_file", VStr "expt.dat")] = None /\
  snd (run example_readers (VNum (Fin (/100))) None None []
           [("data_folders", VList [VStr "run1"]); ("kint_file", VStr "kint.dat");
            ("exp_file", VStr "expt.dat")] init_world)
  = Raise (HDX_Error missing_parameters_msg).
Proof.
  split; [reflexivity|].
  apply (run_missing_setup_params_raises example_readers (VNum (Fin (/100)))
           [("data_folders", VList [VStr "run1"]); ("kint_file", VStr "kint.dat");
            ("exp_file", VStr "expt.dat")] init_world).
  right; right; right; reflexivity.
Defined.

(** ** C4: the MC acceptance test *)

Lemma rv_get_spec (k : string) (w : world) (d : dict) :
  runvalues (self w) = Some d ->
  rv_get k w = (w, match dict_lookup k d with Some v => Ok v | None => Raise (KeyError k) end).
Proof.
  intros H. unfold rv_get, bind, get_self, from_opt. rewrite H. cbn [ret raise].
  destruct (dict_lookup k d); reflexivity.
Qed.

Lemma mp_get_spec (k : string) (w : world) :
  mp_get k w = (w, match dict_lookup k (methodparams (self w)) with
                   | Some v => Ok v | None => Raise (KeyError k) end).
Proof.
  unfold mp_get, bind, get_self, from_opt. cbn [ret raise].
  destruct (dict_lookup k (methodparams (self w))); reflexivity.
Qed.

Lemma acc_val_fin (ns : Z) (nt : nat) (m refvar : R) :
  0 < refvar ->
  acc_val ns nt (Fin m) (Fin refvar) = Fin (IZR ns * INR nt * m / (2 * refvar)).
Proof.
  intros H. unfold acc_val, ndiv, nmul, nlift2.
  destruct (Req_EM_T (2 * refvar) 0); [lra|reflexivity].
Qed.

Lemma move_prob_fin (ns : Z) (nt : nat) (t c refvar : R) :
  0 < refvar ->
  move_prob ns nt (Fin t) (Fin c) (Fin refvar) =
  Fin (exp (- (IZR ns * INR nt * t / (2 * refvar) - IZR ns * INR nt * c / (2 * refvar)))).
Proof.
  intros H. unfold move_prob. rewrite !acc_val_fin by exact H. reflexivity.
Qed.

(** C4: a trial whose MSE is strictly lower than the current MSE is
    accepted without drawing a random number; otherwise, with
    [val m = n_segs * n_times * m / (2 * mc_refvar)], the move is accepted
    exactly when the uniform draw [u] is below [exp (-(val trial - val curr))],
    a number in (0, 1], which is therefore the acceptance probability; for
    [mc_refvar = 0.03], one segment, one time, trial MSE 0.05 and current
    MSE 0.02 this probability is [exp (-0.5)]. *)
Theorem mc_acceptance_rule (t c refvar : R) (ns : Z) (times : list value) (w : world)
  (d p : dict) :
  runvalues (self w) = Some d -> dict_lookup "n_segs" d = Some (VInt ns) ->
  runparams (self w) = Some p -> dict_lookup "times" p = Some (VList times) ->
  dict_lookup "mc_refvar" (methodparams (self w)) = Some (VNum (Fin refvar)) ->
  0 < refvar -> (0 <= ns)%Z ->
  (t < c -> mc_accept (Fin t) (Fin c) w = (w, Ok true)) /\
  (c <= t ->
   let val m := IZR ns * INR (length times) * m / (2 * refvar) in
   0 < exp (- (val t - val c)) <= 1 /\
   snd (mc_accept (Fin t) (Fin c) w) =
   Ok (if Rlt_dec (rng w (rng_pos w)) (exp (- (val t - val c))) then true else false)) /\
  move_prob 1 1 (Fin (5/100)) (Fin (2/100)) (Fin (3/100)) = Fin (exp (- (1/2))).
Proof.
  intros Hd Hns Hp Ht Hr Hpos Hns0.
  split; [|split].
  - intros Hlt. unfold mc_accept, nlt.
    destruct (Rlt_dec t c); [reflexivity|contradiction].
  - intros Hle val. split.
    + split; [apply exp_pos|].
      assert (Hmono : val c <= val t).
      { unfold val. unfold Rdiv. apply Rmult_le_compat_r.
        - left. apply Rinv_0_lt_compat. lra.
        - apply Rmult_le_compat_l; [|exact Hle].
          apply Rmult_le_pos; [apply IZR_le; exact Hns0|apply pos_INR]. }
      assert (Hx : - (val t - val c) <= 0) by lra.
      destruct Hx as [Hx|Hx].
      * left. rewrite <- exp_0. apply exp_increasing. exact Hx.
      * right. rewrite Hx. apply exp_0.
    + unfold mc_accept, nlt.
      destruct (Rlt_dec t c) as [Hlt|_]; [lra|].
      unfold bind. rewrite (rv_get_spec "n_segs" w d Hd), Hns. cbn [as_int ret].
      rewrite (rp_get_spec "times" w p Hp), Ht. cbn [py_len ret].
      rewrite (mp_get_spec "mc_refvar" w), Hr. cbn [as_num ret].
      unfold random_sample. cbn [snd].
      unfold ngt. rewrite move_prob_fin by exact Hpos. cbn [nlt]. reflexivity.
  - rewrite move_prob_fin by lra. f_equal. f_equal. simpl. field.
Qed.

Definition acceptance_world : world :=
  mkWorld (mkMaxEnt default_methodparams (Some [("times", VList [VNum (Fin 1)])])
                    (Some [("n_segs", VInt 1)]) None)
          module_globals (fun _ => 1/2) 0.

Lemma mc_acceptance_rule_witness :
  0 < 3/100 /\
  snd (mc_accept (Fin (5/100)) (Fin (2/100)) acceptance_world) =
  Ok (if Rlt_dec (rng acceptance_world (rng_pos acceptance_world))
           (exp (- (IZR 1 * INR (length [VNum (Fin 1)]) * (5/100) / (2 * (3/100)) -
                    IZR 1 * INR (length [VNum (Fin 1)]) * (2/100) / (2 * (3/100)))))
      then true else false).
Proof.
  split; [lra|].
  destruct (mc_acceptance_rule (5/100) (2/100) (3/100) 1 [VNum (Fin 1)] acceptance_world
              [("n_segs", VInt 1)] [("times", VList [VNum (Fin 1)])])
    as [_ [H _]]; try reflexivity; try lra; try lia.
  destruct (H ltac:(lra)) as [_ H2]. exact H2.
Defined.

(** ** The sampling loop never completes an iteration *)

Definition raises {A} (m : M A) : Prop := forall w, exists e, snd (m w) = Raise e.

Lemma raises_bind {A B} (m : M A) (f : A -> M B) :
  (forall a, raises (f a)) -> raises (bind m f).
Proof.
  intros Hf w. unfold bind. destruct (m w) as [w' [a|e]].
  - apply Hf.
  - exists e. reflexivity.
Qed.

Lemma raises_bind_first {A B} (m : M A) (f : A -> M B) :
  raises m -> raises (bind m f).
Proof.
  intros Hm w. unfold bind. destruct (Hm w) as [e He].
  destruct (m w) as [w' r]. cbn in He. subst r. exists e. reflexivity.
Qed.

Lemma raises_raise {A} (e : exn) : raises (@raise A e).
Proof. intros w. exists e. reflexivity. Qed.

Lemma adding_function_raises (bc bh mse resfracs lambdas : value) (w : world) :
  adding_function bc bh mse resfracs lambdas w =
  (w, Raise (UnboundLocalError "total_bc")).
Proof. reflexivity. Qed.

Lemma adding_function_nolambda_raises (bc bh mse resfracs : value) (w : world) :
  adding_function_nolambda bc bh mse resfracs w =
  (w, Raise (UnboundLocalError "total_bc")).
Proof. reflexivity. Qed.

Ltac raises_step :=
  match goal with
  | |- raises (bind (adding_function _ _ _ _ _) _) => apply raises_bind_first
  | |- raises (bind (adding_function_nolambda _ _ _ _) _) => apply raises_bind_first
  | |- raises (bind _ _) => apply raises_bind; intro
  | |- raises (raise _) => apply raises_raise
  | |- raises (adding_function _ _ _ _ _) =>
      intros ?w; eexists; rewrite adding_function_raises; reflexivity
  | |- raises (adding_function_nolambda _ _ _ _) =>
      intros ?w; eexists; rewrite adding_function_nolambda_raises; reflexivity
  | |- raises (match ?x with _ => _ end) => destruct x
  | |- raises (if ?b then _ else _) => destruct b
  end.

Lemma mc_iteration_raises (fuel : nat) (ac ah : list num) (i : nat) (st : mcloop) :
  raises (mc_iteration fuel ac ah i st).
Proof. unfold mc_iteration. repeat raises_step. Qed.

Lemma mc_loop_raises (fuel : nat) (ac ah : list num) (iters : list nat) (st : mcloop) :
  iters <> [] -> raises (mc_loop fuel ac ah iters st).
Proof.
  intros H. destruct iters as [|i rest]; [congruence|].
  cbn [mc_loop]. apply raises_bind_first. apply mc_iteration_raises.
Qed.

Lemma finish_sampling_unassigned_raises (s bc bh : num) :
  raises (finish_sampling s (mkLoop bc bh None)).
Proof.
  unfold finish_sampling. apply raises_bind; intros dorw.
  apply raises_bind_first. apply raises_raise.
Qed.

(** [sample_parameters_MC] never returns normally: with at least one inner
    step the accumulation closure raises, and with none the averaging reads
    the still unassigned [radou_bc_sum]. *)
Lemma sample_parameters_MC_raises (fuel : nat) : raises (sample_parameters_MC fuel).
Proof.
  unfold sample_parameters_MC.
  repeat (match goal with
          | |- raises (bind (mc_loop _ _ _ ?l _) _) =>
              destruct l as [|i rest] eqn:El;
              [ apply finish_sampling_unassigned_raises
              | apply raises_bind_first; apply mc_loop_raises; discriminate ]
          | _ => raises_step
          end).
Qed.

(** ** C6: averaging and blending after the sampling loop *)

(** Decides the real comparisons met while evaluating at concrete inputs. *)
Ltac rdec :=
  repeat match goal with
         | |- context [Req_EM_T ?a ?b] =>
             destruct (Req_EM_T a b); [try (exfalso; lra)|]
         | |- context [Req_dec_T ?a ?b] =>
             destruct (Req_dec_T a b); [try (exfalso; lra)|]
         | |- context [Rlt_dec ?a ?b] =>
             destruct (Rlt_dec a b); [try (exfalso; lra)|try (exfalso; lra)]
         end.

(** Two inner steps that both kept [Bc = 0.35], [Bh = 2.0] (no reweighting,
    no equilibration: [smoothing_rate = 1.0]). *)
Definition blend_world : world :=
  mkWorld (mkMaxEnt (dict_set "do_reweight" (VBool false)
                       (dict_set "param_maxiters" (VInt 2) default_methodparams))
                    (Some [("gamma", VNum (Fin (/100)))])
                    (Some [])
                    (Some (zero_mcsamplvalues 0)))
          module_globals (fun _ => 0) 0.

Definition blend_loop : mcloop :=
  mkLoop (Fin (35/100)) (Fin 2)
    (Some [VNum (Fin (7/10)); VNum (Fin 4); VNum (Fin 0); VNum (Fin 0)]).

(** C6 (code_bug): [sample_parameters_MC] never reaches its averaging code
    (it always raises); and that code, run on sums of [param_maxiters = 2]
    steps with [Bc = 0.35], averages [Bc] to 0.35 but then stores
    [0.35 / 2 = 0.175] as the new [radou_bc] with [smoothing_rate = 1.0]:
    the average is divided by [param_maxiters] a second time. *)
Theorem finish_sampling_divides_twice :
  (forall fuel, raises (sample_parameters_MC fuel)) /\
  snd (update_sampled_averages [VNum (Fin (7/10))] blend_world) = Ok [VNum (Fin (35/100))] /\
  smoothing_rate_of (Fin (IZR (-1))) (Fin 0) = Fin 1 /\
  dict_lookup "radou_bc" (methodparams (self (fst (finish_sampling (Fin 1) blend_loop blend_world))))
  = Some (VNum (Fin (35/200))).
Proof.
  split; [exact sample_parameters_MC_raises|].
  split; [|split].
  - cbn. rdec. do 4 f_equal. field.
  - unfold smoothing_rate_of, ngt, nlt. rdec. reflexivity.
  - do 3 (cbn; rdec). do 3 f_equal. field.
Qed.

(** ** C10: the channel-lambda computation in a fresh run *)

Definition advance (w : world) (k : nat) : world :=
  mkWorld (self w) (globals w) (rng w) k.

Lemma perturb_spec (b : num) (key : string) (w : world) (psf rg : num) :
  dict_lookup "param_stepfactor" (methodparams (self w)) = Some (VNum psf) ->
  dict_lookup key (methodparams (self w)) = Some (VNum rg) ->
  perturb b key w =
  (advance w (S (rng_pos w)),
   Ok (nadd b (nmul (nmul (nsub (Fin (rng w (rng_pos w))) (Fin (1/2))) psf) rg))).
Proof.
  intros H1 H2. unfold perturb, bind, random_sample. cbn [ret snd fst].
  rewrite (mp_get_spec "param_stepfactor"). cbn [self methodparams]. rewrite H1.
  cbn [as_num ret]. rewrite (mp_get_spec key). cbn [self]. rewrite H2. reflexivity.
Qed.

Lemma while_negative_spec (fuel : nat) (b : num) (key : string) (psf rg : num) :
  forall (cur : num) (w : world),
  dict_lookup "param_stepfactor" (methodparams (self w)) = Some (VNum psf) ->
  dict_lookup key (methodparams (self w)) = Some (VNum rg) ->
  exists k r, while_negative fuel cur (perturb b key) w = (advance w k, r) /\
              (r = Raise Diverge \/ exists x, r = Ok x).
Proof.
  induction fuel as [|f IH]; intros cur w H1 H2.
  - exists (rng_pos w), (Raise Diverge). split; [|left; reflexivity].
    destruct w; reflexivity.
  - cbn [while_negative]. destruct (lt0 cur).
    + unfold bind. rewrite (perturb_spec b key w psf rg H1 H2).
      destruct (IH (nadd b (nmul (nmul (nsub (Fin (rng w (rng_pos w))) (Fin (1/2))) psf) rg))
                   (advance w (S (rng_pos w))) H1 H2) as [k [r [E Hr]]].
      rewrite E. exists k, r. split; [reflexivity|exact Hr].
    + exists (rng_pos w), (Ok cur). split; [destruct w; reflexivity|right; eauto].
Qed.

Lemma generate_trial_betas_spec (fuel : nat) (bc bh psf rh rc : num) (w : world) :
  dict_lookup "param_stepfactor" (methodparams (self w)) = Some (VNum psf) ->
  dict_lookup "radou_bhrange" (methodparams (self w)) = Some (VNum rh) ->
  dict_lookup "radou_bcrange" (methodparams (self w)) = Some (VNum rc) ->
  exists k, generate_trial_betas fuel bc bh w = (advance w k, Ok (bc, bh)) \/
            generate_trial_betas fuel bc bh w = (advance w k, Raise Diverge).
Proof.
  intros H1 H2 H3. unfold generate_trial_betas, bind.
  destruct (while_negative_spec fuel bh "radou_bhrange" psf rh (Fin (-1)) w H1 H2)
    as [k1 [r1 [E1 [Hr1|[x1 Hr1]]]]]; rewrite E1; subst r1.
  - exists k1. right. reflexivity.
  - destruct (while_negative_spec fuel bc "radou_bcrange" psf rc (Fin (-1)) (advance w k1) H1 H3)
      as [k2 [r2 [E2 [Hr2|[x2 Hr2]]]]]; rewrite E2; subst r2; exists k2.
    + right. reflexivity.
    + left. reflexivity.
Qed.

(** A fresh run set up by [run] from arrays returned by the readers. *)
Definition fixed_readers (contacts hbonds : list (list num)) (resids : value)
  (mkt expd : arr3) (sf : filt3) : readers :=
  mkReaders (fun _ _ _ => Ok (contacts, hbonds, resids))
            (fun _ _ _ _ _ => Ok (mkt, expd, sf)).

Definition fresh_run_params (ts : list value) : dict :=
  [("data_folders", VList [VStr "run1"]); ("kint_file", VStr "kint.dat");
   ("exp_file", VStr "expt.dat"); ("times", VList ts)].

(** Construction, fresh setup and the first two steps of an iteration. *)
Definition fresh_iteration (extra : dict) (L : readers) (ts : list value) : M unit :=
  MaxEnt_init extra ;;;
  run L (VNum (Fin (/100))) None None [] (fresh_run_params ts) ;;;
  update_lnpi_and_weights ;;;
  update_dfracs_and_mse.

(** Method parameters of a run that samples the coefficients by MC with
    reweighting, with [param_maxiters = n]. *)
Definition mc_params (n : Z) : dict :=
  [("do_mcsampl", VBool true); ("do_reweight", VBool true); ("param_maxiters", VInt n)].

Definition fresh_mc_run (fuel : nat) (n : Z) (L : readers) (ts : list value) : M unit :=
  fresh_iteration (mc_params n) L ts ;;; sample_parameters_MC fuel.

(** Evaluation of the concrete control flow, leaving the numerics symbolic. *)
Ltac eval_control :=
  cbv -[Req_dec_T Rlt_dec IZR INR Rplus Rmult Rminus Rdiv Rinv Ropp exp sqrt
        residue_dfracs segment_dfracs mse broadcast_res weighted_sum sigma_of
        protection_factor bias_mc bias_plain normalise unnormalised_weights zip3
        zipWith repeat Z.to_nat generate_trial_betas nlt ngt nanmean_axis1].

(** C10: in a fresh run with [do_mcsampl] and [do_reweight] set and at least
    one inner MC step, whatever the arrays returned by the readers, the
    exchange times and the random draws, [sample_parameters_MC] ends by
    raising [NameError] for the bare module-level name [segfilters] read by
    [calc_lambdas_in_sampleloop] in the first inner step; the only other
    outcome is the model's [Diverge], when the fuel bounding a resampling
    [while] loop of [generate_trial_betas] runs out. *)
Theorem fresh_mc_sampling_raises_NameError (n : Z) (contacts hbonds : list (list num))
  (resids : value) (mkt expd : arr3) (sf : filt3) (ts : list value) (rngf : nat -> R)
  (fuel : nat) (m : maxent) :
  (1 <= n)%Z ->
  let e := snd (fresh_mc_run fuel n (fixed_readers contacts hbonds resids mkt expd sf) ts
                  (mkWorld m module_globals rngf 0)) in
  e = Raise (NameError "segfilters") \/ e = Raise Diverge.
Proof.
  intros Hn e. subst e.
  assert (Hk : exists k, Z.to_nat n = S k) by (exists (Z.to_nat n - 1)%nat; lia).
  destruct Hk as [k Hk].
  repeat (eval_control; first
    [ rewrite Hk
    | match goal with
      | |- context [generate_trial_betas ?f ?a ?b ?w] =>
          destruct (generate_trial_betas_spec f a b (Fin (/10)) (Fin 16) (Fin (3/2)) w
                      eq_refl eq_refl eq_refl) as [j [E|E]]; rewrite E
      | |- context [ngt ?a ?b] => destruct (ngt a b)
      | |- context [nlt ?a ?b] => destruct (nlt a b)
      end ]).
  all: first [left; reflexivity | right; reflexivity].
Qed.

Lemma fresh_mc_sampling_raises_NameError_witness :
  (1 <= 100)%Z /\
  let e := snd (fresh_mc_run 10 100
                  (fixed_readers [[Fin 1; Fin 2]; [Fin 3; Fin 4]] [[Fin 0; Fin 0]; [Fin 0; Fin 0]]
                     (VList [VInt 1; VInt 2]) [[[Fin 1]; [Fin 1]]] [[[Fin (1/2)]; [Fin (1/2)]]]
                     [[[true]; [true]]])
                  [VNum (Fin 1)]
                  (mkWorld (mkMaxEnt [] None None None) module_globals (fun _ => 9/10) 0)) in
  e = Raise (NameError "segfilters") \/ e = Raise Diverge.
Proof.
  split; [lia|].
  apply (fresh_mc_sampling_raises_NameError 100); lia.
Defined.

(** ** C8: the forward model on a two-residue, two-frame example *)

Definition example_contacts : list (list num) := [[Fin 1; Fin 2]; [Fin 3; Fin 4]].
Definition example_hbonds : list (list num) := [[Fin 0; Fin 0]; [Fin 0; Fin 0]].

(** Readers returning the example arrays (one segment of both residues, one
    exchange time). *)
Definition example_readers2 : readers :=
  fixed_readers example_contacts example_hbonds (VList [VInt 1; VInt 2])
    [[[Fin (-1)]; [Fin (-1)]]] [[[Fin (1/2)]; [Fin (1/2)]]] [[[true]; [true]]].

(** Construction with the default method parameters ([Bc = 0.35],
    [Bh = 2.0], no MC sampling), fresh setup (zero lambdas, unit initial
    weights) and the first weight update. *)
Definition first_weights : M unit :=
  MaxEnt_init [] ;;;
  run example_readers2 (VNum (Fin (/100))) None None [] (fresh_run_params [VNum (Fin 1)]) ;;;
  update_lnpi_and_weights.

Definition empty_world : world :=
  mkWorld (mkMaxEnt [] None None None) module_globals (fun _ => 0) 0.

Ltac exp_zero :=
  repeat match goal with
         | |- context [exp ?x] => replace (exp x) with 1 by (rewrite <- exp_0; f_equal; ring)
         end.

Ltac struct_eq :=
  repeat match goal with
         | |- Fin _ = Fin _ => f_equal; field
         | |- Some _ = Some _ => f_equal
         | |- VMat _ = VMat _ => f_equal
         | |- VVec _ = VVec _ => f_equal
         | |- cons _ _ = cons _ _ => f_equal
         | |- nil = nil => reflexivity
         | |- _ /\ _ => split
         end.

(** C8: for contacts [[1,2],[3,4]], hbonds all zero, [Bc = 0.35],
    [Bh = 2.0], zero lambdas and unit initial weights, the weight update
    stores [lnpi = [[0.35,0.7],[1.05,1.4]]], the bias factor is [[0,0]]
    and the stored current weights are [[0.5,0.5]]; with zero lambdas the
    normalised weights are [[0.5,0.5]] for every [Bc] and [Bh]. *)
Theorem forward_model_example :
  let s := self (fst (first_weights empty_world)) in
  option_map (dict_lookup "lnpi") (runvalues s) =
    Some (Some (VMat [[Fin (35/100); Fin (7/10)]; [Fin (105/100); Fin (14/10)]])) /\
  option_map (dict_lookup "lambdas") (runvalues s) = Some (Some (VVec [Fin 0; Fin 0])) /\
  option_map (dict_lookup "iniweights") (runvalues s) = Some (Some (VVec [Fin 1; Fin 1])) /\
  bias_plain [Fin 0; Fin 0]
    (protection_factor (Fin (35/100)) (Fin 2) example_contacts example_hbonds) = [Fin 0; Fin 0] /\
  option_map (dict_lookup "currweights") (runvalues s) =
    Some (Some (VVec [Fin (1/2); Fin (1/2)])) /\
  forall bc bh : R,
    normalise (unnormalised_weights [Fin 1; Fin 1]
      (bias_plain [Fin 0; Fin 0] (protection_factor (Fin bc) (Fin bh) example_contacts example_hbonds)))
    = [Fin (1/2); Fin (1/2)].
Proof.
  split; [|split; [|split; [|split; [|split]]]].
  1-5: cbv -[Req_dec_T Rlt_dec IZR Rplus Rmult Rminus Rdiv Rinv Ropp exp sqrt];
       exp_zero; rdec; struct_eq.
  intros bc bh.
  cbv -[Req_dec_T Rlt_dec IZR Rplus Rmult Rminus Rdiv Rinv Ropp exp sqrt].
  exp_zero; rdec; struct_eq.
Qed.

(** ** C9: when the spread of [lnpi] is recorded *)

(** Construction, fresh setup, an action on the iteration counter, and one
    weight update. *)
Definition fresh_update (extra : dict) (L : readers) (ts : list value) (counter : M unit)
  : M unit :=
  MaxEnt_init extra ;;;
  run L (VNum (Fin (/100))) None None [] (fresh_run_params ts) ;;;
  counter ;;;
  update_lnpi_and_weights.

Definition rv_lookup (k : string) (w : world) : option (option value) :=
  option_map (dict_lookup k) (runvalues (self w)).

Ltac eval_forward :=
  cbv -[Req_dec_T Rlt_dec IZR Rplus Rmult Rminus Rdiv Rinv Ropp exp sqrt sigma_of nmean
        normalise unnormalised_weights weighted_sum broadcast_res protection_factor bias_mc
        bias_plain zip3 repeat].

(** C9 (code_bug): whatever the arrays returned by the readers, the
    exchange times, the random draws and [do_mcsampl], a fresh setup sets
    the counter [curriter] to 0 and a weight update right after it, the
    first one of the run, records neither [sigma_lnpi] nor
    [ave_sigma_lnpi]; when the counter is set to [c] before the update,
    both are recorded ([ave_sigma_lnpi] the mean of [sigma_lnpi]) exactly
    when [c = 1]. *)
Theorem sigma_lnpi_recorded_iff_counter_one (b : bool) (c : Z)
  (contacts hbonds : list (list num)) (resids : value) (mkt expd : arr3) (sf : filt3)
  (ts : list value) (rngf : nat -> R) (m : maxent) :
  let L := fixed_readers contacts hbonds resids mkt expd sf in
  let w0 := mkWorld m module_globals rngf 0 in
  let w1 := fst (fresh_update [("do_mcsampl", VBool b)] L ts (ret tt) w0) in
  let w2 := fst (fresh_update [("do_mcsampl", VBool b)] L ts (rv_set "curriter" (VInt c)) w0) in
  rv_lookup "curriter" w1 = Some (Some (VInt 0)) /\
  rv_lookup "sigma_lnpi" w1 = Some None /\ rv_lookup "ave_sigma_lnpi" w1 = Some None /\
  if Z.eqb c 1 then
    exists sig, rv_lookup "sigma_lnpi" w2 = Some (Some (VVec sig)) /\
                rv_lookup "ave_sigma_lnpi" w2 = Some (Some (VNum (nmean sig)))
  else rv_lookup "sigma_lnpi" w2 = Some None /\ rv_lookup "ave_sigma_lnpi" w2 = Some None.
Proof.
  intros L w0 w1 w2. subst L w0 w1 w2.
  split; [|split; [|split]].
  1-3: destruct b; eval_forward; reflexivity.
  destruct (Z.eqb c 1) eqn:Ec.
  - apply Z.eqb_eq in Ec. subst c.
    destruct b; eval_forward; eexists; split; reflexivity.
  - destruct b;
      cbv -[Req_dec_T Rlt_dec IZR Rplus Rmult Rminus Rdiv Rinv Ropp exp sqrt sigma_of nmean
            normalise unnormalised_weights weighted_sum broadcast_res protection_factor
            bias_mc bias_plain zip3 repeat Z.eqb];
      rewrite Ec; eval_forward; split; reflexivity.
Qed.

(** ** C3: the deuterated fractions and the MSE *)

Ltac prune :=
  try (exfalso;
       first [ lra
             | match goal with H : ?a <> ?b |- _ => apply H; ring end
             | match goal with H : exp ?x = 0 |- _ => pose proof (exp_pos x); lra end ]).

(** Decides every real comparison, dropping the impossible branches. *)
Ltac rdec_full :=
  repeat match goal with
         | |- context [Req_dec_T ?a ?b] => destruct (Req_dec_T a b); prune
         | |- context [Rlt_dec ?a ?b] => destruct (Rlt_dec a b); prune
         end.

(** Two residues, one frame, one exchange time and two segments: the first
    segment holds both residues, the second none (all its filters are
    [False]). *)
Definition filtered_segment_readers : readers :=
  fixed_readers [[Fin 1]; [Fin 1]] [[Fin 0]; [Fin 0]] (VList [VInt 1; VInt 2])
    [[[Fin (-1)]; [Fin (-1)]]; [[Fin (-1)]; [Fin (-1)]]]
    [[[Fin (1/2)]; [Fin (1/2)]]; [[Fin (1/2)]; [Fin (1/2)]]]
    [[[true]; [true]]; [[false]; [false]]].

(** C3 (code_bug): with a fully filtered-out segment, the fresh setup and
    the first forward-model evaluation raise no exception, and there are
    two valid datapoints, but the stored [curr_MSE] is [nan]: the segment
    mean of the filtered-out segment is [nan], and [nan * False] is still
    [nan], so the filtered-out entries reach the sum of squared deviations. *)
Theorem filtered_out_segment_makes_mse_nan :
  let r := fresh_iteration [] filtered_segment_readers [VNum (Fin 1)] empty_world in
  snd r = Ok tt /\
  rv_lookup "n_datapoints" (fst r) = Some (Some (VInt 2)) /\
  rv_lookup "curr_MSE" (fst r) = Some (Some (VNum NaN)).
Proof.
  cbv -[Req_dec_T Rlt_dec IZR Rplus Rmult Rminus Rdiv Rinv Ropp exp sqrt].
  exp_zero. rdec_full. all: repeat split.
Qed.

(** ** C2: restarting from a checkpoint *)

Lemma assign_globals_self (ns : list string) :
  forall (vs : list value) (w : world),
  exists g, assign_globals ns vs w = (mkWorld (self w) g (rng w) (rng_pos w), Ok tt).
Proof.
  induction ns as [|n ns IH]; intros vs w.
  - exists (globals w). destruct w; reflexivity.
  - destruct vs as [|v vs].
    + exists (globals w). destruct w; reflexivity.
    + cbn [assign_globals]. unfold bind at 1. unfold set_global at 1.
      destruct (IH vs (mkWorld (self w) (dict_set n v (globals w)) (rng w) (rng_pos w)))
        as [g E].
      exists g. rewrite E. reflexivity.
Qed.

(** A checkpoint payload of the expected length. *)
Definition checkpoint_payload : list value := repeat (VNum (Fin 1)) 28.

Definition restart_world : world :=
  mkWorld (mkMaxEnt default_methodparams
             (Some [("gamma", VNum (Fin (/100))); ("out_prefix", VStr "reweighting_")])
             None None)
          module_globals (fun _ => 0) 0.

(** [run] with a restart file: [restart_payload] stands for
    [pickle.load(open(restart, 'rb'))]. *)
Lemma run_restart_eq (L : readers) (gamma : value) (runobj : option value)
  (rstfile : value) (payload : list value) (params : dict) (w : world) :
  exists g, run L gamma runobj (Some rstfile) payload params w =
    (mkWorld (mkMaxEnt (methodparams (self w))
                (Some (dict_set "from_restart" (VBool true) [("gamma", gamma)]))
                (runvalues (self w)) (mcsamplvalues (self w))) g (rng w) (rng_pos w),
     Raise (if Nat.eqb (length payload) 28 then KeyError "out_prefix" else ValueError)).
Proof.
  unfold run, bind at 1. unfold set_run_params, set_runparams, modify_self.
  unfold setup_restart, bind at 1. change (length restart_names) with 28%nat.
  destruct (Nat.eqb (length payload) 28) eqn:E.
  - match goal with
    | |- context [assign_globals restart_names payload ?w1] =>
        destruct (assign_globals_self restart_names payload w1) as [g Eg]
    end.
    rewrite Eg. exists g. reflexivity.
  - exists (globals w). reflexivity.
Qed.

(** C2 (code_bug): [run] with a restart file raises whatever the unpickled
    checkpoint holds: [ValueError] when it is not a 28-tuple, otherwise
    [KeyError] on [out_prefix], which [set_run_params] no longer sets on a
    restart; and it restores nothing into [self]: the run values, MC values
    and method parameters are those held before the call (the 28 values go
    to module globals only, the iteration counter is not among them).  Even
    with [out_prefix] set, the restart setup raises [NameError] on the
    unassigned global [T]. *)
Theorem restart_restores_nothing (L : readers) (gamma : value) (runobj : option value)
  (rstfile : value) (payload : list value) (params : dict) (w : world) :
  let res := run L gamma runobj (Some rstfile) payload params w in
  snd res = Raise (if Nat.eqb (length payload) 28 then KeyError "out_prefix" else ValueError) /\
  runvalues (self (fst res)) = runvalues (self w) /\
  mcsamplvalues (self (fst res)) = mcsamplvalues (self w) /\
  methodparams (self (fst res)) = methodparams (self w) /\
  snd (setup_restart checkpoint_payload restart_world) = Raise (NameError "T").
Proof.
  intros res. subst res.
  destruct (run_restart_eq L gamma runobj rstfile payload params w) as [g E].
  rewrite E. repeat split.
Qed.

(** ** C1: the frame weights *)

(** A vector of [n] finite floats. *)
Definition finite_vec (n : nat) (v : list num) : Prop :=
  exists xs, v = map Fin xs /\ length xs = n.

Lemma finite_vec_zip_nadd (n : nat) (a b : list num) :
  finite_vec n a -> finite_vec n b -> finite_vec n (zipWith nadd a b).
Proof.
  intros [xs [-> Hx]] [ys [-> Hy]].
  exists (zipWith Rplus xs ys). revert ys n Hx Hy.
  induction xs as [|x xs IH]; intros [|y ys] n Hx Hy; cbn in *; subst n;
    try discriminate; [split; reflexivity|].
  injection Hy as Hy. destruct (IH ys (length xs) eq_refl Hy) as [E L].
  split; [cbn; rewrite E; reflexivity|cbn; rewrite L; reflexivity].
Qed.

Lemma finite_vec_scale (n : nat) (c : R) (a : list num) :
  finite_vec n a -> finite_vec n (map (nmul (Fin c)) a).
Proof.
  intros [xs [-> Hx]]. exists (map (Rmult c) xs).
  rewrite !map_map, length_map. split; [reflexivity|exact Hx].
Qed.

Lemma finite_rows_zip (n : nat) (a b : list (list num)) :
  Forall (finite_vec n) a -> Forall (finite_vec n) b ->
  Forall (finite_vec n) (zipWith (zipWith nadd) a b).
Proof.
  intros Ha. revert b. induction Ha as [|r a Hr Ha IH]; intros [|r' b] Hb; cbn; [constructor..|].
  inversion Hb; subst. constructor; [apply finite_vec_zip_nadd; assumption|apply IH; assumption].
Qed.

Lemma finite_rows_scale (n : nat) (c : R) (m : list (list num)) :
  Forall (finite_vec n) m -> Forall (finite_vec n) (scale (Fin c) m).
Proof.
  intros H. unfold scale. induction H; cbn; constructor; [apply finite_vec_scale|]; assumption.
Qed.

Lemma finite_rows_rowscale (n : nat) (l : list R) (m : list (list num)) :
  Forall (finite_vec n) m -> Forall (finite_vec n) (rowscale (map Fin l) m).
Proof.
  intros H. revert l. induction H as [|r m Hr H IH]; intros [|x l]; cbn; constructor.
  - apply finite_vec_scale. exact Hr.
  - apply IH.
Qed.

Lemma finite_vec_sum_axis0 (n : nat) (m : list (list num)) :
  Forall (finite_vec n) m -> finite_vec n (sum_axis0 n m).
Proof.
  intros H. unfold sum_axis0. induction H as [|r m Hr H IH]; cbn [fold_right].
  - exists (repeat 0 n). rewrite repeat_length. split; [|reflexivity].
    induction n; cbn; [reflexivity|congruence].
  - apply finite_vec_zip_nadd; assumption.
Qed.

Lemma ncols_finite (n : nat) (m : list (list num)) :
  m <> [] -> Forall (finite_vec n) m -> ncols m = n.
Proof.
  intros Hm H. destruct H as [|r m [xs [-> Hx]] _]; [congruence|].
  unfold ncols. cbn. rewrite length_map. exact Hx.
Qed.

Lemma finite_rows_map (n : nat) (m : list (list R)) :
  Forall (fun r => length r = n) m -> Forall (finite_vec n) (map (map Fin) m).
Proof.
  intros H. induction H; cbn; constructor; [exists x; split; [reflexivity|assumption]|assumption].
Qed.

Lemma sumR_cons (x : R) (l : list R) : sumR (x :: l) = x + sumR l.
Proof. reflexivity. Qed.

Lemma sumR_nonneg (l : list R) : Forall (Rle 0) l -> 0 <= sumR l.
Proof. intros H. induction H; [cbn; lra|rewrite sumR_cons; lra]. Qed.

Lemma unnormalised_weights_fin (ini bs : list R) :
  unnormalised_weights (map Fin ini) (map Fin bs) =
  map Fin (zipWith (fun i b => i * exp b) ini bs).
Proof.
  revert bs. induction ini as [|i ini IH]; intros [|b bs]; cbn; try reflexivity.
  unfold unnormalised_weights in IH. rewrite IH. reflexivity.
Qed.

Lemma weights_nonneg (ini bs : list R) :
  Forall (Rle 0) ini -> Forall (Rle 0) (zipWith (fun i b => i * exp b) ini bs).
Proof.
  intros H. revert bs. induction H as [|i ini Hi H IH]; intros [|b bs]; cbn; constructor.
  - pose proof (exp_pos b). nra.
  - apply IH.
Qed.

Lemma weights_sum_pos (ini bs : list R) :
  length bs = length ini -> Forall (Rle 0) ini -> 0 < sumR ini ->
  0 < sumR (zipWith (fun i b => i * exp b) ini bs).
Proof.
  revert bs. induction ini as [|i ini IH]; intros [|b bs] Hl H Hs;
    try (cbn in Hs; lra); try discriminate.
  cbn in Hl. injection Hl as Hl. cbn [zipWith]. rewrite sumR_cons in *.
  inversion H as [|i' ini' Hi Hr]; subst.
  pose proof (exp_pos b). pose proof (sumR_nonneg _ (weights_nonneg ini bs Hr)).
  destruct (Rlt_or_le 0 i) as [Hp|Hz].
  - assert (0 < i * exp b) by nra. lra.
  - assert (i = 0) by lra. subst i.
    assert (0 < sumR ini) by lra.
    assert (0 < sumR (zipWith (fun i b => i * exp b) ini bs)) by (apply IH; auto).
    lra.
Qed.

Lemma nsum_fin (l : list R) : nsum (map Fin l) = Fin (sumR l).
Proof.
  induction l as [|x l IH]; [reflexivity|].
  unfold nsum in *. cbn [map fold_right]. rewrite IH. reflexivity.
Qed.

Lemma sumR_div (l : list R) (s : R) : sumR (map (fun u => u / s) l) = sumR l / s.
Proof.
  induction l as [|x l IH]; [cbn; unfold Rdiv; ring|].
  cbn [map]. rewrite !sumR_cons, IH. unfold Rdiv. ring.
Qed.

Lemma normalise_fin (us : list R) (s : R) :
  s = sumR us -> 0 < s ->
  normalise (map Fin us) = map (fun u => Fin (u / s)) us.
Proof.
  intros Hs Hp. unfold normalise. rewrite nsum_fin, <- Hs, map_map.
  apply map_ext. intros u. cbn. destruct (Req_EM_T s 0); [lra|reflexivity].
Qed.

(** Finite bias and non-negative initial weights of positive sum give
    non-negative weights of sum 1. *)
Lemma normalised_weights_spec (ini bs : list R) :
  length bs = length ini -> Forall (Rle 0) ini -> 0 < sumR ini ->
  exists ws, normalise (unnormalised_weights (map Fin ini) (map Fin bs)) = map Fin ws /\
             Forall (Rle 0) ws /\ sumR ws = 1.
Proof.
  intros Hl Hn Hs.
  set (us := zipWith (fun i b => i * exp b) ini bs).
  assert (Hp : 0 < sumR us) by (apply weights_sum_pos; assumption).
  exists (map (fun u => u / sumR us) us).
  rewrite unnormalised_weights_fin. fold us.
  rewrite (normalise_fin us (sumR us) eq_refl Hp), map_map. split; [reflexivity|split].
  - pose proof (weights_nonneg ini bs Hn) as Hu. fold us in Hu.
    apply Forall_map. eapply Forall_impl; [|exact Hu]. intros u Hu'. cbn.
    unfold Rdiv. apply Rmult_le_pos; [exact Hu'|left; apply Rinv_0_lt_compat; exact Hp].
  - rewrite sumR_div. field. lra.
Qed.

Lemma bias_plain_finite (bc bh : R) (C Hb : list (list R)) (lam : list R) (n : nat) :
  C <> [] -> length Hb = length C ->
  Forall (fun r => length r = n) C -> Forall (fun r => length r = n) Hb ->
  finite_vec n (bias_plain (map Fin lam)
                  (protection_factor (Fin bc) (Fin bh) (map (map Fin) C) (map (map Fin) Hb))).
Proof.
  intros HC Hl FC FH. unfold bias_plain.
  assert (Hrows : Forall (finite_vec n)
                    (protection_factor (Fin bc) (Fin bh) (map (map Fin) C) (map (map Fin) Hb))).
  { apply finite_rows_zip; apply finite_rows_scale, finite_rows_map; assumption. }
  rewrite (ncols_finite n _); [|destruct C, Hb; cbn in *; congruence|exact Hrows].
  apply finite_vec_sum_axis0, finite_rows_rowscale, Hrows.
Qed.

Lemma bias_mc_finite (C Hb : list (list R)) (lc lh : list R) (n : nat) :
  C <> [] ->
  Forall (fun r => length r = n) C -> Forall (fun r => length r = n) Hb ->
  finite_vec n (bias_mc (map Fin lc) (map Fin lh) (map (map Fin) C) (map (map Fin) Hb)).
Proof.
  intros HC FC FH. unfold bias_mc.
  rewrite (ncols_finite n _); [|destruct C; cbn; congruence|apply finite_rows_map, FC].
  apply finite_vec_sum_axis0, finite_rows_zip; apply finite_rows_rowscale, finite_rows_map;
    assumption.
Qed.

Ltac eval_state :=
  cbv -[dict_lookup dict_set map normalise unnormalised_weights protection_factor bias_plain
        bias_mc weighted_sum sigma_of nmean broadcast_res Z.eqb IZR].

(** C1 (corrected): whenever [update_lnpi_and_weights] runs on a state
    whose coefficients, contacts, H-bonds and lambdas (or, with
    [do_mcsampl], channel lambdas) are finite, whose contact and H-bond
    matrices have the same shape, one row per residue and one column per
    frame, with one lambda per residue, whose [n_segs] is not negative, and
    whose initial weights are non-negative with a positive sum, it returns
    normally and the current weights it stores are finite, non-negative and
    sum to 1 (in exact arithmetic). *)
Theorem stored_weights_normalised (w : world) (rv rp : dict) (b : bool) (bc bh : R)
  (C Hb : list (list R)) (lam lc lh ini : list R) (c ns : Z) (ts : list value) :
  runvalues (self w) = Some rv -> runparams (self w) = Some rp ->
  dict_lookup "radou_bc" (methodparams (self w)) = Some (VNum (Fin bc)) ->
  dict_lookup "radou_bh" (methodparams (self w)) = Some (VNum (Fin bh)) ->
  dict_lookup "do_mcsampl" (methodparams (self w)) = Some (VBool b) ->
  dict_lookup "contacts" rv = Some (VMat (map (map Fin) C)) ->
  dict_lookup "hbonds" rv = Some (VMat (map (map Fin) Hb)) ->
  (if b then exists mc, mcsamplvalues (self w) = Some mc /\
                        dict_lookup "lambdas_c" mc = Some (VVec (map Fin lc)) /\
                        dict_lookup "lambdas_h" mc = Some (VVec (map Fin lh))
   else dict_lookup "lambdas" rv = Some (VVec (map Fin lam))) ->
  dict_lookup "iniweights" rv = Some (VVec (map Fin ini)) ->
  dict_lookup "curriter" rv = Some (VInt c) ->
  dict_lookup "times" rp = Some (VList ts) ->
  dict_lookup "n_segs" rv = Some (VInt ns) -> (0 <= ns)%Z ->
  (if b then length lc = length C /\ length lh = length C else length lam = length C) ->
  C <> [] -> length Hb = length C ->
  Forall (fun r => length r = length ini) C -> Forall (fun r => length r = length ini) Hb ->
  Forall (Rle 0) ini -> 0 < sumR ini ->
  exists ws, Forall (Rle 0) ws /\ sumR ws = 1 /\
    match update_lnpi_and_weights w with
    | (w', Ok _) => rv_lookup "currweights" w' = Some (Some (VVec (map Fin ws)))
    | (_, Raise _) => False
    end.
Proof.
  intros Hrv Hrp Hbc Hbh Hmc HC HH Hlam Hini Hcur Hts Hns _ _ HCne Hl FC FH Hn Hs.
  destruct w as [[mp rp0 rv0 mc0] g r p]. cbn in Hrv, Hrp, Hbc, Hbh, Hmc, Hlam. subst rv0 rp0.
  assert (Hb' : exists bs, length bs = length ini /\
            (if b then bias_mc (map Fin lc) (map Fin lh) (map (map Fin) C) (map (map Fin) Hb)
             else bias_plain (map Fin lam)
                    (protection_factor (Fin bc) (Fin bh) (map (map Fin) C) (map (map Fin) Hb)))
            = map Fin bs).
  { destruct b.
    - destruct (bias_mc_finite C Hb lc lh (length ini) HCne FC FH) as [bs [E L]]. eauto.
    - destruct (bias_plain_finite bc bh C Hb lam (length ini) HCne Hl FC FH) as [bs [E L]]. eauto. }
  destruct Hb' as [bs [Hlen Hbias]].
  destruct (normalised_weights_spec ini bs Hlen Hn Hs) as [ws [Hws [Hpos Hsum]]].
  exists ws. split; [exact Hpos|split; [exact Hsum|]].
  destruct b; [destruct Hlam as [mc [Hmc0 [Hlam_c Hlam_h]]]; cbn in Hmc0; subst mc0|].
  all: repeat (eval_state; first
         [ rewrite dict_lookup_set | rewrite Hbc | rewrite Hbh | rewrite Hmc | rewrite HC
         | rewrite HH | rewrite Hini | rewrite Hcur | rewrite Hts | rewrite Hns | rewrite Hbias
         | rewrite Hws | rewrite Hlam | rewrite Hlam_c | rewrite Hlam_h
         | match goal with |- context [Z.eqb ?x 1] => destruct (Z.eqb x 1) end ]).
  all: reflexivity.
Qed.

Definition weights_world : world :=
  mkWorld (mkMaxEnt default_methodparams (Some [("times", VList [VNum (Fin 1)])])
             (Some [("contacts", VMat example_contacts); ("hbonds", VMat example_hbonds);
                    ("lambdas", VVec [Fin 0; Fin 0]); ("iniweights", VVec [Fin 1; Fin 1]);
                    ("curriter", VInt 0); ("n_segs", VInt 1)])
             None)
          module_globals (fun _ => 0) 0.

Lemma stored_weights_normalised_witness :
  exists ws, Forall (Rle 0) ws /\ sumR ws = 1 /\
    match update_lnpi_and_weights weights_world with
    | (w', Ok _) => rv_lookup "currweights" w' = Some (Some (VVec (map Fin ws)))
    | (_, Raise _) => False
    end.
Proof.
  apply (stored_weights_normalised weights_world
           [("contacts", VMat example_contacts); ("hbonds", VMat example_hbonds);
            ("lambdas", VVec [Fin 0; Fin 0]); ("iniweights", VVec [Fin 1; Fin 1]);
            ("curriter", VInt 0); ("n_segs", VInt 1)]
           [("times", VList [VNum (Fin 1)])] false (35/100) 2
           [[1; 2]; [3; 4]] [[0; 0]; [0; 0]] [0; 0] [] [] [1; 1] 0 1 [VNum (Fin 1)]);
    try reflexivity.
  - lia.
  - discriminate.
  - repeat constructor.
  - repeat constructor.
  - repeat constructor; lra.
  - cbn. lra.
Defined.

(** Construction with [random_initial] set, fresh setup on the example
    arrays of C8 and the first weight update. *)
Definition random_zero_draws : M unit :=
  MaxEnt_init [("random_initial", VBool true)] ;;;
  run example_readers2 (VNum (Fin (/100))) None None [] (fresh_run_params [VNum (Fin 1)]) ;;;
  update_lnpi_and_weights.

(** C1 (counterexample): with [random_initial] set and every draw of
    [state.rand] equal to [0.0] (a value it can return), the fresh setup
    stores initial weights [[0, 0]] and the first weight update returns
    normally but stores the current weights [[nan, nan]] ([0/0]). *)
Lemma random_zero_draws_nan_weights :
  let r := random_zero_draws empty_world in
  snd r = Ok tt /\
  rv_lookup "iniweights" (fst r) = Some (Some (VVec [Fin 0; Fin 0])) /\
  rv_lookup "currweights" (fst r) = Some (Some (VVec [NaN; NaN])).
Proof.
  cbv -[Req_dec_T Rlt_dec IZR Rplus Rmult Rminus Rdiv Rinv Ropp exp sqrt].
  exp_zero. rdec_full. all: repeat split.
Qed.

(** * Further properties of the code *)

(** Concrete inputs for the witnesses below. *)
Definition default_world : world :=
  mkWorld (mkMaxEnt default_methodparams None None None) module_globals (fun _ => 0) 0.

(** The object built by the constructor with its default parameters. *)
Definition constructed_world : world := fst (MaxEnt_init [] empty_world).

Definition random_world : world :=
  fst (MaxEnt_init [("random_initial", VBool true)]
         (mkWorld (mkMaxEnt [] None None None) module_globals (fun _ => 1/2) 0)).

Definition small_readers : readers :=
  fixed_readers [[Fin 1; Fin 2]] [[Fin 0; Fin 0]] (VList [VInt 1]) [[[Fin 1]]]
                [[[Fin (1/2)]]] [[[true]]].

Definition failing_readers : readers :=
  mkReaders (fun _ _ _ => Raise (KeyError "contacts")) (fun _ _ _ _ _ => Raise (KeyError "kint")).

Lemma py_binop_pure (f : num -> num -> num) (a b : value) (w : world) :
  exists r, py_binop f a b w = (w, r).
Proof. destruct a, b; eexists; reflexivity. Qed.

Lemma dict_lookup_set_default_same (k : string) (v : value) (d : dict) :
  dict_lookup k (set_default k v d) =
  Some (match dict_lookup k d with Some u => u | None => v end).
Proof.
  unfold set_default. destruct (dict_lookup k d) eqn:E; [exact E|].
  rewrite dict_lookup_set, String.eqb_refl. reflexivity.
Qed.

(** X1: the constructor [MaxEnt], given keyword arguments [extra_params], stores as method parameters the defaults
    updated by [extra_params]: every key other than [kT] holds the caller's
    value when one is given and the default otherwise, and the run
    parameters, run values and MC values are not set; when the construction
    raises, the object is left as it was. *)
Theorem MaxEnt_init_overrides_defaults (e : dict) (w : world) :
  match MaxEnt_init e w with
  | (w', Ok _) =>
      (forall k, k <> "kT" ->
         dict_lookup k (methodparams (self w')) =
         match dict_lookup k e with
         | Some v => Some v
         | None => dict_lookup k default_methodparams
         end) /\
      runparams (self w') = None /\ runvalues (self w') = None /\
      mcsamplvalues (self w') = None
  | (w', Raise _) => w' = w
  end.
Proof.
  unfold MaxEnt_init, bind, from_opt.
  destruct (dict_lookup "temp" (dict_update default_methodparams e)) as [t|]; cbn [ret raise];
    [|reflexivity].
  destruct (py_binop_pure nmul t (VNum (Fin (8314598 / 10 ^ 9))) w) as [r E].
  unfold py_mul. rewrite E. destruct r as [kT|ex]; [|reflexivity].
  unfold modify_self. cbn [self methodparams runparams runvalues mcsamplvalues].
  split; [|repeat split].
  intros k Hk. rewrite dict_lookup_set. apply String.eqb_neq in Hk. rewrite Hk.
  apply dict_lookup_update.
Qed.

(** X2: the constructor returns normally and stores
    [kT = temp * 0.008314598], where [temp] is the caller's number or, when
    none is given, the default 300. *)
Theorem MaxEnt_init_kT (e : dict) (t : R) (w : world) :
  dict_lookup "temp" e = Some (VNum (Fin t)) \/ (dict_lookup "temp" e = None /\ t = 300) ->
  snd (MaxEnt_init e w) = Ok tt /\
  dict_lookup "kT" (methodparams (self (fst (MaxEnt_init e w)))) =
    Some (VNum (Fin (t * (8314598 / 10 ^ 9)))).
Proof.
  intros Ht. unfold MaxEnt_init, bind, from_opt.
  rewrite dict_lookup_update.
  destruct Ht as [Ht|[Ht ->]]; rewrite Ht; cbn; split; reflexivity.
Qed.

Lemma MaxEnt_init_kT_witness :
  snd (MaxEnt_init [("temp", VNum (Fin 310))] empty_world) = Ok tt /\
  dict_lookup "kT" (methodparams (self (fst (MaxEnt_init [("temp", VNum (Fin 310))] empty_world)))) =
    Some (VNum (Fin (310 * (8314598 / 10 ^ 9)))).
Proof. apply MaxEnt_init_kT. left. reflexivity. Defined.

(** X3: a [temp] given as a string makes the constructor raise
    [TypeError] (a string times a float) before anything is stored. *)
Theorem MaxEnt_init_string_temp (e : dict) (s : string) (w : world) :
  dict_lookup "temp" e = Some (VStr s) ->
  MaxEnt_init e w = (w, Raise TypeError).
Proof.
  intros Ht. unfold MaxEnt_init, bind, from_opt.
  rewrite dict_lookup_update, Ht. reflexivity.
Qed.

Lemma MaxEnt_init_string_temp_witness :
  MaxEnt_init [("temp", VStr "300")] empty_world = (empty_world, Raise TypeError).
Proof. apply (MaxEnt_init_string_temp _ "300"). reflexivity. Defined.

Lemma fresh_runparams_lookup_all (gamma : value) (params : dict) (k : string) :
  dict_lookup k (fresh_runparams gamma params) =
    match dict_lookup k params with
    | Some v => Some v
    | None =>
        if String.eqb k "hbonds_prefix" then Some (VStr "Hbonds_")
        else if String.eqb k "contacts_prefix" then Some (VStr "Contacts_")
        else if String.eqb k "out_prefix" then Some (VStr "reweighting_")
        else if String.eqb k "gamma" then Some gamma
        else None
    end.
Proof.
  unfold fresh_runparams.
  destruct (String.eqb_spec k "out_prefix") as [->|H1].
  { rewrite dict_lookup_set_default_same, !dict_lookup_set_default by discriminate.
    rewrite dict_lookup_update. cbn.
    destruct (dict_lookup "out_prefix" params); reflexivity. }
  rewrite dict_lookup_set_default by exact H1.
  destruct (String.eqb_spec k "contacts_prefix") as [->|H2].
  { rewrite dict_lookup_set_default_same, !dict_lookup_set_default by discriminate.
    rewrite dict_lookup_update. cbn.
    destruct (dict_lookup "contacts_prefix" params); reflexivity. }
  rewrite dict_lookup_set_default by exact H2.
  destruct (String.eqb_spec k "hbonds_prefix") as [->|H3].
  { rewrite dict_lookup_set_default_same. rewrite dict_lookup_update. cbn.
    destruct (dict_lookup "hbonds_prefix" params); reflexivity. }
  rewrite dict_lookup_set_default by exact H3.
  rewrite dict_lookup_update. cbn [dict_lookup].
  destruct (dict_lookup k params); [reflexivity|].
  destruct (String.eqb_spec k "gamma"); reflexivity.
Qed.

(** X4: without restart file or run object, [set_run_params] returns
    normally and stores run parameters in which every key holds the caller's
    value when given; otherwise [hbonds_prefix], [contacts_prefix] and
    [out_prefix] hold ['Hbonds_'], ['Contacts_'] and ['reweighting_'],
    [gamma] holds the [gamma] argument, and no other key is present. *)
Theorem set_run_params_fills_defaults (gamma : value) (params : dict) (w : world) :
  let w' := fst (set_run_params gamma None None params w) in
  snd (set_run_params gamma None None params w) = Ok tt /\
  exists d, runparams (self w') = Some d /\
  forall k, dict_lookup k d =
    match dict_lookup k params with
    | Some v => Some v
    | None =>
        if String.eqb k "hbonds_prefix" then Some (VStr "Hbonds_")
        else if String.eqb k "contacts_prefix" then Some (VStr "Contacts_")
        else if String.eqb k "out_prefix" then Some (VStr "reweighting_")
        else if String.eqb k "gamma" then Some gamma
        else None
    end.
Proof.
  intros w'. subst w'. rewrite set_run_params_fresh. split; [reflexivity|].
  eexists; split; [reflexivity|]. apply fresh_runparams_lookup_all.
Qed.

Lemma draws_spec (n : nat) : forall (w : world),
  draws n w = (mkWorld (self w) (globals w) (rng w) (rng_pos w + n),
               Ok (map (fun i => Fin (rng w i)) (seq (rng_pos w) n))).
Proof.
  induction n as [|n IH]; intros w.
  - rewrite Nat.add_0_r. destruct w; reflexivity.
  - cbn [draws]. unfold bind, random_sample, ret.
    cbn [self globals rng rng_pos]. rewrite IH. cbn [self globals rng rng_pos].
    replace (S (rng_pos w) + n)%nat with (rng_pos w + S n)%nat by lia.
    reflexivity.
Qed.

Lemma dict_lookup_notin (k : string) (d : dict) :
  ~ In k (map fst d) -> dict_lookup k d = None.
Proof.
  induction d as [|[k' v] t IH]; intros H; [reflexivity|].
  cbn [dict_lookup]. cbn [map fst In] in H.
  destruct (String.eqb_spec k k') as [->|_]; [exfalso; apply H; left; reflexivity|].
  apply IH. intros Hin. apply H. right. exact Hin.
Qed.

Ltac eval_setup :=
  cbv -[dict_lookup fresh_runparams draws Req_dec_T Rlt_dec IZR INR Rplus Rmult Rminus
        Rdiv Rinv Ropp exp sqrt repeat length ncols count_true zip3 Z.of_nat seq map
        mask nopp].

Ltac eval_setup_in H :=
  cbv -[dict_lookup fresh_runparams draws Req_dec_T Rlt_dec IZR INR Rplus Rmult Rminus
        Rdiv Rinv Ropp exp sqrt repeat length ncols count_true zip3 Z.of_nat seq map
        mask nopp] in H.

Lemma fresh_runparams_some (gamma : value) (params : dict) (k : string) :
  In k ["hbonds_prefix"; "contacts_prefix"; "out_prefix"; "gamma"] ->
  exists v, dict_lookup k (fresh_runparams gamma params) = Some v.
Proof.
  intros Hk. rewrite fresh_runparams_lookup_all.
  destruct (dict_lookup k params) as [v|]; [eauto|].
  cbn in Hk. destruct Hk as [<-|[<-|[<-|[<-|[]]]]]; cbn; eauto.
Qed.

Ltac setup_step Er :=
  first [ match goal with H : dict_lookup _ _ = Some _ |- _ => rewrite H in Er end
        | match type of Er with
          | context [dict_lookup ?k (fresh_runparams ?g ?p)] =>
              let E := fresh "E" in
              first [ destruct (fresh_runparams_some g p k ltac:(cbn; auto)) as [? E]
                    | pose proof (fresh_runparams_lookup_all g p k) as E ];
              rewrite E in Er; clear E
          end
        | rewrite draws_spec in Er
        | match goal with
          | H : forall a b c, read_contacts_hbonds _ a b c = _ |- _ => rewrite H in Er
          end ].

Ltac eval_run Er :=
  unfold run, bind in Er; rewrite set_run_params_fresh in Er;
  repeat (eval_setup_in Er; setup_step Er); eval_setup_in Er; subst.

(** X5: [run] with a run object and no restart file stores the run
    parameters [from_calchdx = True] and [gamma] and changes nothing else
    ([setup_runobj] is empty); on an object with no run values the next
    step, [update_lnpi_and_weights], then raises [AttributeError] on
    [runvalues]. *)
Theorem run_with_runobj_sets_up_nothing (L : readers) (gamma r : value) (payload : list value)
  (params : dict) (w : world) (x : num) :
  runvalues (self w) = None ->
  dict_lookup "radou_bc" (methodparams (self w)) = Some (VNum x) ->
  run L gamma (Some r) None payload params w =
    (mkWorld (mkMaxEnt (methodparams (self w))
                       (Some [("from_calchdx", VBool true); ("gamma", gamma)])
                       None (mcsamplvalues (self w)))
             (globals w) (rng w) (rng_pos w), Ok tt) /\
  snd ((run L gamma (Some r) None payload params ;;; update_lnpi_and_weights) w) =
    Raise (AttributeError "runvalues").
Proof.
  intros Hrv Hbc. destruct w as [[mp rp rv mc] g rr pos]. cbn in Hrv, Hbc. subst rv.
  split; [reflexivity|].
  eval_setup. rewrite Hbc. reflexivity.
Qed.

Lemma run_with_runobj_sets_up_nothing_witness :
  run small_readers (VNum (Fin (/100))) (Some (VStr "calc")) None [] [] default_world =
    (mkWorld (mkMaxEnt (methodparams (self default_world))
                       (Some [("from_calchdx", VBool true); ("gamma", VNum (Fin (/100)))])
                       None (mcsamplvalues (self default_world)))
             (globals default_world) (rng default_world) (rng_pos default_world), Ok tt) /\
  snd ((run small_readers (VNum (Fin (/100))) (Some (VStr "calc")) None [] [] ;;;
        update_lnpi_and_weights) default_world) = Raise (AttributeError "runvalues").
Proof. apply (run_with_runobj_sets_up_nothing _ _ _ _ _ _ (Fin (35/100))); reflexivity. Defined.

(** The method parameters formatted into [initial_params.dat] by the
    setup. *)
Definition initial_param_names : list string :=
  ["temp"; "kT"; "tolerance"; "radou_bc"; "radou_bh"; "stepfactor"].

(** Turns the hypotheses on the formatted parameters into lookups that
    [eval_run] rewrites with. *)
Ltac initial_params_hyps Hp Hg0 x params :=
  assert (Egam : dict_lookup "gamma" (fresh_runparams (VNum x) params) = Some (VNum x))
    by (rewrite fresh_runparams_lookup_all, Hg0; reflexivity);
  destruct (Hp "temp" ltac:(cbn; tauto)) as [? ?];
  destruct (Hp "kT" ltac:(cbn; tauto)) as [? ?];
  destruct (Hp "tolerance" ltac:(cbn; tauto)) as [? ?];
  destruct (Hp "radou_bc" ltac:(cbn; tauto)) as [? ?];
  destruct (Hp "radou_bh" ltac:(cbn; tauto)) as [? ?];
  destruct (Hp "stepfactor" ltac:(cbn; tauto)) as [? ?];
  clear Hp.

Definition setup_value_names : list string :=
  ["contacts"; "hbonds"; "kint"; "exp_dfrac"; "segfilters"; "lambdas"; "nframes";
   "iniweights"; "minuskt_filtered"; "exp_dfrac_filtered"; "n_datapoints"; "n_segs";
   "lambdamod"; "deltalambdamod"; "curriter"; "minuskt"].

(** X6: a fresh setup by [run] (the four required run parameters given,
    [random_initial] off, [gamma] and the method parameters that the setup
    writes to [initial_params.dat] present as floats) returns normally and leaves zero lambdas (one per
    residue), unit initial weights (one per frame), [nframes] the number of
    frames, [curriter = 0], [n_segs] the number of segments, [n_datapoints]
    the number of set filter entries, no run value outside the setup's
    names, fresh zero MC values when [do_mcsampl] is set (those held before
    otherwise) and the method parameters unchanged. *)
Theorem fresh_setup_initial_state (contacts hbonds : list (list num)) (resids : value)
  (mkt expd : arr3) (sf : filt3) (gamma : value) (payload : list value) (params : dict)
  (w : world) (b : bool) (df kf ef tm : value) :
  dict_lookup "data_folders" params = Some df ->
  dict_lookup "kint_file" params = Some kf ->
  dict_lookup "exp_file" params = Some ef ->
  dict_lookup "times" params = Some tm ->
  dict_lookup "do_mcsampl" (methodparams (self w)) = Some (VBool b) ->
  dict_lookup "random_initial" (methodparams (self w)) = Some (VBool false) ->
  (forall k, In k initial_param_names ->
     exists x, dict_lookup k (methodparams (self w)) = Some (VNum x)) ->
  dict_lookup "gamma" params = None -> (exists g, gamma = VNum g) ->
  let res := run (fixed_readers contacts hbonds resids mkt expd sf) gamma None None
                 payload params w in
  let w' := fst res in
  snd res = Ok tt /\
  rv_lookup "lambdas" w' = Some (Some (VVec (repeat (Fin 0) (length hbonds)))) /\
  rv_lookup "iniweights" w' = Some (Some (VVec (repeat (Fin 1) (ncols contacts)))) /\
  rv_lookup "nframes" w' = Some (Some (VInt (Z.of_nat (ncols contacts)))) /\
  rv_lookup "curriter" w' = Some (Some (VInt 0)) /\
  rv_lookup "n_segs" w' = Some (Some (VInt (Z.of_nat (length sf)))) /\
  rv_lookup "n_datapoints" w' = Some (Some (VInt (Z.of_nat (count_true sf)))) /\
  (forall k, ~ In k setup_value_names -> rv_lookup k w' = Some None) /\
  mcsamplvalues (self w') =
    (if b then Some (zero_mcsamplvalues (length hbonds)) else mcsamplvalues (self w)) /\
  methodparams (self w') = methodparams (self w).
Proof.
  intros Hdf Hkf Hef Htm Hmc Hri Hp Hg0 [gm ->] res w'. subst w'.
  destruct w as [[mp rp rv mc] g rr pos]. cbn [self methodparams] in Hmc, Hri, Hp.
  initial_params_hyps Hp Hg0 gm params.
  remember res as res' eqn:Er. subst res. symmetry in Er.
  destruct b; eval_run Er.
  all: repeat split; try reflexivity.
  all: intros k Hk; unfold rv_lookup; cbn [fst self runvalues option_map];
       f_equal; apply dict_lookup_notin; exact Hk.
Qed.

Lemma fresh_setup_initial_state_witness :
  let res := run small_readers (VNum (Fin (/100))) None None []
                 (fresh_run_params [VNum (Fin 1)]) constructed_world in
  let w' := fst res in
  snd res = Ok tt /\
  rv_lookup "lambdas" w' = Some (Some (VVec (repeat (Fin 0) 1))) /\
  rv_lookup "iniweights" w' = Some (Some (VVec (repeat (Fin 1) (ncols [[Fin 1; Fin 2]])))) /\
  rv_lookup "nframes" w' = Some (Some (VInt (Z.of_nat (ncols [[Fin 1; Fin 2]])))) /\
  rv_lookup "curriter" w' = Some (Some (VInt 0)) /\
  rv_lookup "n_segs" w' = Some (Some (VInt 1)) /\
  rv_lookup "n_datapoints" w' = Some (Some (VInt (Z.of_nat (count_true [[[true]]])))) /\
  (forall k, ~ In k setup_value_names -> rv_lookup k w' = Some None) /\
  mcsamplvalues (self w') = mcsamplvalues (self constructed_world) /\
  methodparams (self w') = methodparams (self constructed_world).
Proof.
  apply (fresh_setup_initial_state [[Fin 1; Fin 2]] [[Fin 0; Fin 0]] (VList [VInt 1])
           [[[Fin 1]]] [[[Fin (1/2)]]] [[[true]]] (VNum (Fin (/100))) []
           (fresh_run_params [VNum (Fin 1)]) constructed_world false
           (VList [VStr "run1"]) (VStr "kint.dat") (VStr "expt.dat") (VList [VNum (Fin 1)]));
    try reflexivity.
  - intros k Hk. cbn in Hk.
    repeat (destruct Hk as [<-|Hk]; [eexists; reflexivity|]). contradiction.
  - eexists; reflexivity.
Defined.

(** X7: with [random_initial] set ([gamma] and the method parameters
    written to [initial_params.dat] present as floats), a fresh setup
    returns normally and its initial weights are one uniform draw in [0, 1) per frame. *)
Theorem fresh_setup_random_initial_weights (contacts hbonds : list (list num)) (resids : value)
  (mkt expd : arr3) (sf : filt3) (gamma : value) (payload : list value) (params : dict)
  (w : world) (b : bool) (df kf ef tm : value) :
  dict_lookup "data_folders" params = Some df ->
  dict_lookup "kint_file" params = Some kf ->
  dict_lookup "exp_file" params = Some ef ->
  dict_lookup "times" params = Some tm ->
  dict_lookup "do_mcsampl" (methodparams (self w)) = Some (VBool b) ->
  dict_lookup "random_initial" (methodparams (self w)) = Some (VBool true) ->
  (forall k, In k initial_param_names ->
     exists x, dict_lookup k (methodparams (self w)) = Some (VNum x)) ->
  dict_lookup "gamma" params = None -> (exists g, gamma = VNum g) ->
  (forall i, 0 <= rng w i < 1) ->
  let res := run (fixed_readers contacts hbonds resids mkt expd sf) gamma None None
                 payload params w in
  snd res = Ok tt /\
  exists xs, rv_lookup "iniweights" (fst res) = Some (Some (VVec (map Fin xs))) /\
             length xs = ncols contacts /\ Forall (fun x => 0 <= x < 1) xs.
Proof.
  intros Hdf Hkf Hef Htm Hmc Hri Hp Hg0 [gm ->] Hrng res.
  destruct w as [[mp rp rv mc] g rr pos]; cbn [self methodparams rng rng_pos] in *.
  initial_params_hyps Hp Hg0 gm params.
  remember res as res' eqn:Er; subst res; symmetry in Er.
  destruct b; eval_run Er; (split; [reflexivity|]);
    exists (map rr (seq pos (ncols contacts))); (split; [|split]).
  1,4: unfold rv_lookup; cbn [fst self runvalues option_map]; rewrite map_map; reflexivity.
  1,3: rewrite length_map, length_seq; reflexivity.
  all: apply Forall_forall; intros y Hx; apply in_map_iff in Hx;
       destruct Hx as [i [<- _]]; apply Hrng.
Qed.

Lemma fresh_setup_random_initial_weights_witness :
  let res := run small_readers (VNum (Fin (/100))) None None []
                 (fresh_run_params [VNum (Fin 1)]) random_world in
  snd res = Ok tt /\
  exists xs, rv_lookup "iniweights" (fst res) = Some (Some (VVec (map Fin xs))) /\
             length xs = ncols [[Fin 1; Fin 2]] /\ Forall (fun x => 0 <= x < 1) xs.
Proof.
  apply (fresh_setup_random_initial_weights [[Fin 1; Fin 2]] [[Fin 0; Fin 0]] (VList [VInt 1])
           [[[Fin 1]]] [[[Fin (1/2)]]] [[[true]]] (VNum (Fin (/100))) []
           (fresh_run_params [VNum (Fin 1)]) random_world false
           (VList [VStr "run1"]) (VStr "kint.dat") (VStr "expt.dat") (VList [VNum (Fin 1)]));
    try reflexivity.
  - intros k Hk. cbn in Hk.
    repeat (destruct Hk as [<-|Hk]; [eexists; reflexivity|]). contradiction.
  - eexists; reflexivity.
  - intros i. cbn. lra.
Defined.

(** X8: when reading the contacts and H-bonds raises, [run] raises
    [HDX_Error] with its missing-parameters message if that exception is a
    [KeyError] and the same exception otherwise; the run values are left as
    the empty dictionary the setup started from, and the method parameters
    and MC values are unchanged. *)
Theorem run_reader_exception (L : readers) (ex : exn) (gamma : value) (payload : list value)
  (params : dict) (w : world) (df kf ef tm : value) :
  dict_lookup "data_folders" params = Some df ->
  dict_lookup "kint_file" params = Some kf ->
  dict_lookup "exp_file" params = Some ef ->
  dict_lookup "times" params = Some tm ->
  (forall a b c, read_contacts_hbonds L a b c = Raise ex) ->
  let res := run L gamma None None payload params w in
  snd res = Raise (match ex with
                   | KeyError _ => HDX_Error missing_parameters_msg
                   | _ => ex
                   end) /\
  runvalues (self (fst res)) = Some [] /\
  methodparams (self (fst res)) = methodparams (self w) /\
  mcsamplvalues (self (fst res)) = mcsamplvalues (self w).
Proof.
  intros Hdf Hkf Hef Htm HL res.
  destruct w as [[mp rp rv mc] g rr pos]. cbn [self methodparams mcsamplvalues].
  remember res as res' eqn:Er. subst res. symmetry in Er.
  eval_run Er. destruct ex; repeat split.
Qed.

Lemma run_reader_exception_witness :
  let res := run failing_readers (VNum (Fin (/100))) None None []
                 (fresh_run_params [VNum (Fin 1)]) default_world in
  snd res = Raise (HDX_Error missing_parameters_msg) /\
  runvalues (self (fst res)) = Some [] /\
  methodparams (self (fst res)) = methodparams (self default_world) /\
  mcsamplvalues (self (fst res)) = mcsamplvalues (self default_world).
Proof.
  apply (run_reader_exception failing_readers (KeyError "contacts") (VNum (Fin (/100))) []
           (fresh_run_params [VNum (Fin 1)]) default_world
           (VList [VStr "run1"]) (VStr "kint.dat") (VStr "expt.dat") (VList [VNum (Fin 1)]));
    reflexivity.
Defined.

(** a[s][r][t] of a nested array, [None] out of bounds *)
Definition nth3 {A : Type} (a : list (list (list A))) (s r t : nat) : option A :=
  match nth_error a s with
  | Some seg => match nth_error seg r with
                | Some row => nth_error row t
                | None => None
                end
  | None => None
  end.

Lemma nth_error_zipWith {A B C : Type} (f : A -> B -> C) (l1 : list A) (l2 : list B) (i : nat) :
  nth_error (zipWith f l1 l2) i =
  match nth_error l1 i, nth_error l2 i with
  | Some a, Some b => Some (f a b)
  | _, _ => None
  end.
Proof.
  revert l2 i. induction l1 as [|a t IH]; intros l2 i; [destruct i; reflexivity|].
  destruct l2 as [|b t2]; destruct i; cbn; try reflexivity.
  - destruct (nth_error t i); reflexivity.
  - apply IH.
Qed.

Lemma nth3_zip3 {A B C : Type} (f : A -> B -> C) a b (s r t : nat) :
  nth3 (zip3 f a b) s r t =
  match nth3 a s r t, nth3 b s r t with
  | Some x, Some y => Some (f x y)
  | _, _ => None
  end.
Proof.
  unfold nth3, zip3. rewrite nth_error_zipWith.
  destruct (nth_error a s) as [sa|]; [|reflexivity].
  destruct (nth_error b s) as [sb|];
    [|destruct (nth_error sa r) as [ra|]; [destruct (nth_error ra t)|]; reflexivity].
  rewrite nth_error_zipWith.
  destruct (nth_error sa r) as [ra|]; [|reflexivity].
  destruct (nth_error sb r) as [rb|]; [|destruct (nth_error ra t); reflexivity].
  apply nth_error_zipWith.
Qed.

(** X9: each entry of [curr_residue_dfracs] is
    [1 - exp(minuskt_filtered / exp(ave_lnpi))] where its filter is set and
    [ave_lnpi] is non-zero, and [nan] otherwise. *)
Theorem residue_dfracs_entry (mkt ave : arr3) (sf : filt3) (s r t : nat) (m a : num) (b : bool) :
  nth3 mkt s r t = Some m -> nth3 ave s r t = Some a -> nth3 sf s r t = Some b ->
  nth3 (residue_dfracs mkt ave sf) s r t =
    Some (if b && ne0 a then nsub (Fin 1) (nexp (ndiv m (nexp a))) else NaN).
Proof.
  intros Hm Ha Hb. unfold residue_dfracs.
  rewrite nth3_zip3, Hm, nth3_zip3, Ha, Hb. f_equal.
  unfold divide_where, mask, nmul, nlift2.
  destruct a as [x|]; destruct b; cbn [andb ne0].
  - replace (x * 1) with x by ring. destruct (Req_EM_T x 0); reflexivity.
  - destruct (Req_EM_T (x * 0) 0) as [_|H]; [|exfalso; apply H; ring].
    destruct (Req_EM_T x 0); reflexivity.
  - destruct m; reflexivity.
  - destruct m; reflexivity.
Qed.

Lemma residue_dfracs_entry_witness :
  nth3 (residue_dfracs [[[Fin 1]]] [[[Fin 2]]] [[[true]]]) 0 0 0 =
    Some (if true && ne0 (Fin 2) then nsub (Fin 1) (nexp (ndiv (Fin 1) (nexp (Fin 2)))) else NaN).
Proof. apply residue_dfracs_entry; reflexivity. Defined.

Lemma In_zipWith {A B C : Type} (f : A -> B -> C) (l1 : list A) (l2 : list B) (x : C) :
  In x (zipWith f l1 l2) -> exists a b, In a l1 /\ In b l2 /\ x = f a b.
Proof.
  revert l2. induction l1 as [|a t IH]; intros l2 H; [destruct H|].
  destruct l2 as [|b t2]; [destruct H|].
  destruct H as [<-|H].
  - exists a, b. repeat split; left; reflexivity.
  - destruct (IH t2 H) as [a' [b' [H1 [H2 H3]]]].
    exists a', b'. repeat split; try right; assumption.
Qed.

Lemma In_flatten3 {A : Type} (x : A) (a : list (list (list A))) :
  In x (flatten3 a) <-> exists seg row, In seg a /\ In row seg /\ In x row.
Proof.
  unfold flatten3. rewrite in_concat. split.
  - intros [l [Hl Hx]]. apply in_map_iff in Hl. destruct Hl as [seg [<- Hseg]].
    apply in_concat in Hx. destruct Hx as [row [Hrow Hx]]. eauto.
  - intros [seg [row [H1 [H2 H3]]]]. exists (concat seg). split.
    + apply in_map. exact H1.
    + apply in_concat. eauto.
Qed.

Lemma In_flatten3_zip3 {A B C : Type} (f : A -> B -> C) a b (x : C) :
  In x (flatten3 (zip3 f a b)) ->
  exists u v, In u (flatten3 a) /\ In v (flatten3 b) /\ x = f u v.
Proof.
  intros H. apply In_flatten3 in H. destruct H as [seg [row [H1 [H2 H3]]]].
  apply In_zipWith in H1. destruct H1 as [sa [sb [Ha [Hb ->]]]].
  apply In_zipWith in H2. destruct H2 as [ra [rb [Hra [Hrb ->]]]].
  apply In_zipWith in H3. destruct H3 as [u [v [Hu [Hv ->]]]].
  exists u, v. split; [|split; [|reflexivity]]; apply In_flatten3; eauto.
Qed.

Lemma count_true_zero (sf : filt3) (b : bool) :
  count_true sf = 0%nat -> In b (flatten3 sf) -> b = false.
Proof.
  unfold count_true. intros H Hb. destruct b; [|reflexivity].
  exfalso. apply length_zero_iff_nil in H.
  assert (Hin : In true (filter (fun b => b) (flatten3 sf))) by (apply filter_In; auto).
  rewrite H in Hin. destruct Hin.
Qed.

Lemma nsum_zero_or_nan (l : list num) :
  Forall (fun x => x = Fin 0 \/ x = NaN) l -> nsum l = Fin 0 \/ nsum l = NaN.
Proof.
  induction 1 as [|x t Hx _ IH]; [left; reflexivity|].
  unfold nsum in *. cbn [fold_right].
  destruct Hx as [-> | ->]; [|right; reflexivity].
  destruct IH as [-> | ->]; [left; cbn; f_equal; ring|right; reflexivity].
Qed.

(** X10: with no set filter entry, the MSE is the sum of zeros divided
    by [n_datapoints] (or [nan]); divided by the number of data points,
    which is then zero, it is [nan]. *)
Theorem mse_without_datapoints_nan (segd expd : arr3) (sf : filt3) (ndp : num) :
  count_true sf = 0%nat ->
  (mse segd sf (zip3 mask expd sf) ndp = ndiv (Fin 0) ndp \/
   mse segd sf (zip3 mask expd sf) ndp = NaN) /\
  mse segd sf (zip3 mask expd sf) (Fin (IZR (Z.of_nat (count_true sf)))) = NaN.
Proof.
  intros H0. split.
  - unfold mse.
    assert (Hs : nsum (flatten3 (zip3 (fun a e => nsq (nsub a e)) (zip3 mask segd sf)
                                      (zip3 mask expd sf))) = Fin 0 \/
                 nsum (flatten3 (zip3 (fun a e => nsq (nsub a e)) (zip3 mask segd sf)
                                      (zip3 mask expd sf))) = NaN).
    { apply nsum_zero_or_nan. apply Forall_forall. intros x Hx.
      apply In_flatten3_zip3 in Hx. destruct Hx as [u [v [Hu [Hv ->]]]].
      apply In_flatten3_zip3 in Hu. destruct Hu as [s1 [b1 [_ [Hb1 ->]]]].
      apply In_flatten3_zip3 in Hv. destruct Hv as [e1 [b2 [_ [Hb2 ->]]]].
      rewrite (count_true_zero sf b1 H0 Hb1), (count_true_zero sf b2 H0 Hb2).
      destruct s1 as [x1|]; destruct e1 as [y1|]; cbn; auto.
      left. f_equal. ring. }
    destruct Hs as [-> | ->]; [left; reflexivity|right; destruct ndp; reflexivity].
  - rewrite H0. unfold mse, ndiv. cbn [Z.of_nat IZR].
    destruct (nsum _); [|reflexivity].
    destruct (Req_EM_T 0 0) as [_|H]; [reflexivity|exfalso; apply H; reflexivity].
Qed.

Lemma mse_without_datapoints_nan_witness :
  (mse [[[Fin 1]]] [[[false]]] (zip3 mask [[[Fin 1]]] [[[false]]]) (Fin 0) = ndiv (Fin 0) (Fin 0) \/
   mse [[[Fin 1]]] [[[false]]] (zip3 mask [[[Fin 1]]] [[[false]]]) (Fin 0) = NaN) /\
  mse [[[Fin 1]]] [[[false]]] (zip3 mask [[[Fin 1]]] [[[false]]])
      (Fin (IZR (Z.of_nat (count_true [[[false]]])))) = NaN.
Proof. apply mse_without_datapoints_nan. reflexivity. Defined.

Lemma zipWith_map_Fin (f : R -> R -> R) (a b : list R) :
  zipWith (nlift2 f) (map Fin a) (map Fin b) = map Fin (zipWith f a b).
Proof.
  revert b. induction a as [|x t IH]; intros [|y b]; cbn; try reflexivity.
  rewrite IH. reflexivity.
Qed.


(** X12: with [mc_equilsteps > 0] and [curriter >= 0], the smoothing
    rate of the MC sampler is a number in (0, 1]. *)
Theorem smoothing_rate_in_unit_interval (e c : R) :
  0 < e -> 0 <= c ->
  exists s, smoothing_rate_of (Fin e) (Fin c) = Fin s /\ 0 < s <= 1.
Proof.
  intros He Hc. unfold smoothing_rate_of, ngt, nlt.
  destruct (Rlt_dec 0 e) as [_|H]; [|lra].
  cbn [nadd nmul nlift2 nsqrt].
  destruct (Rlt_dec (e * (e + c)) 0) as [H|_]; [nra|].
  assert (Hq : 0 < sqrt (e * (e + c))) by (apply sqrt_lt_R0; nra).
  unfold ndiv. destruct (Req_EM_T (sqrt (e * (e + c))) 0) as [H|_]; [lra|].
  exists (e / sqrt (e * (e + c))). split; [reflexivity|].
  assert (Hle : e <= sqrt (e * (e + c))).
  { rewrite <- (sqrt_square e) at 1 by lra. apply sqrt_le_1_alt. nra. }
  split.
  - apply Rdiv_lt_0_compat; assumption.
  - apply Rmult_le_reg_r with (r := sqrt (e * (e + c))); [exact Hq|].
    unfold Rdiv. rewrite Rmult_assoc, Rinv_l by lra. lra.
Qed.

Lemma smoothing_rate_in_unit_interval_witness :
  exists s, smoothing_rate_of (Fin 10) (Fin 5) = Fin s /\ 0 < s <= 1.
Proof. apply smoothing_rate_in_unit_interval; lra. Defined.

Lemma length_zipWith {A B C : Type} (f : A -> B -> C) (a : list A) (b : list B) :
  length (zipWith f a b) = Nat.min (length a) (length b).
Proof.
  revert b. induction a as [|x t IH]; intros [|y b]; cbn; try reflexivity. now rewrite IH.
Qed.

Lemma Forall_zipWith {A B C : Type} (P : C -> Prop) (f : A -> B -> C) (a : list A) (b : list B) :
  (forall x y, In x a -> In y b -> P (f x y)) -> Forall P (zipWith f a b).
Proof.
  intros H. apply Forall_forall. intros z Hz. apply In_zipWith in Hz.
  destruct Hz as [x [y [Hx [Hy ->]]]]. auto.
Qed.

Lemma zero_row_scale (row : list R) :
  map (nmul (Fin 0)) (map Fin row) = repeat (Fin 0) (length row).
Proof.
  induction row as [|x t IH]; cbn; [reflexivity|]. rewrite IH. f_equal. f_equal. ring.
Qed.

Lemma rowscale_zero (M : list (list R)) :
  rowscale (repeat (Fin 0) (length M)) (map (map Fin) M) =
  map (fun row => repeat (Fin 0) (length row)) M.
Proof.
  induction M as [|row t IH]; cbn; [reflexivity|]. unfold rowscale in IH. rewrite IH.
  rewrite zero_row_scale. reflexivity.
Qed.

Lemma zip_nadd_zero (n : nat) :
  zipWith nadd (repeat (Fin 0) n) (repeat (Fin 0) n) = repeat (Fin 0) n.
Proof.
  induction n as [|n IH]; cbn; [reflexivity|]. rewrite IH. f_equal. cbn. f_equal. ring.
Qed.

Lemma sum_axis0_zero (n : nat) (rows : list (list num)) :
  Forall (fun r => r = repeat (Fin 0) n) rows -> sum_axis0 n rows = repeat (Fin 0) n.
Proof.
  unfold sum_axis0. induction 1 as [|r t Hr _ IH]; cbn [fold_right]; [reflexivity|].
  rewrite IH, Hr. apply zip_nadd_zero.
Qed.

Lemma unnormalised_weights_zero (ini : list R) :
  unnormalised_weights (map Fin ini) (repeat (Fin 0) (length ini)) = map Fin ini.
Proof.
  induction ini as [|x t IH]; cbn; [reflexivity|].
  unfold unnormalised_weights in IH. rewrite IH. rewrite exp_0, Rmult_1_r. reflexivity.
Qed.

Lemma map_repeat_len (n : nat) (M : list (list R)) :
  Forall (fun row => length row = n) M ->
  Forall (fun r => r = repeat (Fin 0) n) (map (fun row => repeat (Fin 0) (length row)) M).
Proof.
  intros H. apply Forall_map. eapply Forall_impl; [|exact H]. intros row ->. reflexivity.
Qed.

Lemma protection_factor_fin (bc bh : R) (C H : list (list R)) :
  protection_factor (Fin bc) (Fin bh) (map (map Fin) C) (map (map Fin) H) =
  map (map Fin) (zipWith (zipWith Rplus) (map (map (Rmult bh)) H) (map (map (Rmult bc)) C)).
Proof.
  unfold protection_factor, scale.
  assert (Hs : forall c M, map (map (nmul (Fin c))) (map (map Fin) M) =
                           map (map Fin) (map (map (Rmult c)) M)).
  { intros c M. rewrite !map_map. apply map_ext. intros row. rewrite !map_map. reflexivity. }
  rewrite !Hs. generalize (map (map (Rmult bh)) H) (map (map (Rmult bc)) C).
  intros A. induction A as [|a t IH]; intros [|b B]; cbn; try reflexivity.
  rewrite IH. change nadd with (nlift2 Rplus). rewrite zipWith_map_Fin. reflexivity.
Qed.

(** X13: with the zero lambdas of a fresh setup, the bias factor is
    zero for every frame, so the unnormalised weights are the initial
    weights, with the plain bias as with the MC bias, whatever [Bc] and
    [Bh]. *)
Theorem zero_lambdas_keep_initial_weights (ini : list R) (C H : list (list R)) (bc bh : R) :
  C <> [] -> length H = length C ->
  Forall (fun row => length row = length ini) C ->
  Forall (fun row => length row = length ini) H ->
  let contacts := map (map Fin) C in
  let hbonds := map (map Fin) H in
  unnormalised_weights (map Fin ini)
    (bias_plain (repeat (Fin 0) (length hbonds))
                (protection_factor (Fin bc) (Fin bh) contacts hbonds)) = map Fin ini /\
  unnormalised_weights (map Fin ini)
    (bias_mc (repeat (Fin 0) (length hbonds)) (repeat (Fin 0) (length hbonds))
             contacts hbonds) = map Fin ini.
Proof.
  intros HC HHC HlC HlH contacts hbonds. subst contacts hbonds.
  destruct C as [|c0 C']; [contradiction|].
  assert (Hc0 : length c0 = length ini) by (inversion HlC; assumption).
  split.
  - rewrite protection_factor_fin.
    set (P := zipWith (zipWith Rplus) (map (map (Rmult bh)) H) (map (map (Rmult bc)) (c0 :: C'))).
    assert (HlP : Forall (fun row => length row = length ini) P).
    { apply Forall_zipWith. intros x y Hx Hy.
      apply in_map_iff in Hx. destruct Hx as [h [<- Hh]].
      apply in_map_iff in Hy. destruct Hy as [c [<- Hc]].
      rewrite length_zipWith, !length_map.
      rewrite Forall_forall in HlC, HlH. rewrite (HlC c Hc), (HlH h Hh). apply Nat.min_id. }
    assert (HPlen : length P = length H).
    { unfold P. rewrite length_zipWith, !length_map, HHC. apply Nat.min_id. }
    unfold bias_plain. rewrite length_map, <- HPlen, rowscale_zero.
    assert (Hn : ncols (map (map Fin) P) = length ini).
    { destruct P as [|p P']; [cbn in HPlen; rewrite HHC in HPlen; discriminate|].
      cbn. rewrite length_map. inversion HlP; assumption. }
    rewrite Hn, sum_axis0_zero by (apply map_repeat_len; exact HlP).
    apply unnormalised_weights_zero.
  - unfold bias_mc. rewrite length_map.
    replace (length H) with (length (c0 :: C')) at 1 by exact (eq_sym HHC).
    rewrite !rowscale_zero.
    assert (Hn : ncols (map (map Fin) (c0 :: C')) = length ini)
      by (cbn; rewrite length_map; exact Hc0).
    rewrite Hn, sum_axis0_zero; [apply unnormalised_weights_zero|].
    apply Forall_zipWith. intros x y Hx Hy.
    apply in_map_iff in Hx. destruct Hx as [c [<- Hc]].
    apply in_map_iff in Hy. destruct Hy as [h [<- Hh]].
    rewrite Forall_forall in HlC, HlH. rewrite (HlC c Hc), (HlH h Hh). apply zip_nadd_zero.
Qed.

Lemma zero_lambdas_keep_initial_weights_witness :
  let contacts := map (map Fin) [[1; 2]] in
  let hbonds := map (map Fin) [[0; 0]] in
  unnormalised_weights (map Fin [1; 1])
    (bias_plain (repeat (Fin 0) (length hbonds))
                (protection_factor (Fin (35/100)) (Fin 2) contacts hbonds)) = map Fin [1; 1] /\
  unnormalised_weights (map Fin [1; 1])
    (bias_mc (repeat (Fin 0) (length hbonds)) (repeat (Fin 0) (length hbonds))
             contacts hbonds) = map Fin [1; 1].
Proof.
  apply zero_lambdas_keep_initial_weights.
  - discriminate.
  - reflexivity.
  - repeat constructor.
  - repeat constructor.
Defined.




(** X15: a trial or current MSE that is [nan] is never accepted: the test
    draws one random number and rejects the move. *)
Theorem mc_accept_nan_rejects (trial curr refvar : num) (ns : Z) (times : list value)
  (w : world) (d p : dict) :
  trial = NaN \/ curr = NaN ->
  runvalues (self w) = Some d -> dict_lookup "n_segs" d = Some (VInt ns) ->
  runparams (self w) = Some p -> dict_lookup "times" p = Some (VList times) ->
  dict_lookup "mc_refvar" (methodparams (self w)) = Some (VNum refvar) ->
  mc_accept trial curr w = (advance w (S (rng_pos w)), Ok false).
Proof.
  intros Hnan Hd Hns Hp Ht Hr.
  assert (Hlt : nlt trial curr = false)
    by (destruct Hnan as [-> | ->]; [destruct curr | destruct trial]; reflexivity).
  assert (Hmp : forall u, ngt (move_prob ns (length times) trial curr refvar) (Fin u) = false).
  { intros u. destruct Hnan as [-> | ->]; [destruct curr | destruct trial];
      destruct refvar; unfold ngt, move_prob, acc_val, ndiv, nmul, nlift2; cbn;
      repeat match goal with |- context [Req_EM_T ?a ?b] => destruct (Req_EM_T a b) end;
      reflexivity. }
  unfold mc_accept. rewrite Hlt.
  unfold bind. rewrite (rv_get_spec "n_segs" w d Hd), Hns. cbn [as_int ret].
  rewrite (rp_get_spec "times" w p Hp), Ht. cbn [py_len ret].
  rewrite (mp_get_spec "mc_refvar" w), Hr. cbn [as_num ret].
  unfold random_sample. cbn [snd fst]. unfold ret. rewrite Hmp. reflexivity.
Qed.

Lemma mc_accept_nan_rejects_witness :
  mc_accept NaN (Fin (2/100)) acceptance_world =
    (advance acceptance_world (S (rng_pos acceptance_world)), Ok false).
Proof.
  apply (mc_accept_nan_rejects _ _ (Fin (3/100)) 1 [VNum (Fin 1)] _ [("n_segs", VInt 1)]
           [("times", VList [VNum (Fin 1)])]);
    try reflexivity.
  left. reflexivity.
Defined.

Definition sampling_params (dorw : bool) (n : Z) : dict :=
  [("do_mcsampl", VBool true); ("do_reweight", VBool dorw); ("param_maxiters", VInt n)].

Definition fresh_sampling_run (fuel : nat) (dorw : bool) (n : Z) (L : readers)
  (ts : list value) : M unit :=
  fresh_iteration (sampling_params dorw n) L ts ;;; sample_parameters_MC fuel.

(** X16: in a fresh run with MC sampling and [param_maxiters <= 0] the
    sampling loop runs no step and [sample_parameters_MC] raises
    [UnboundLocalError] on [radou_bc_sum], with or without reweighting. *)
Theorem fresh_sampling_without_steps (dorw : bool) (n : Z) (contacts hbonds : list (list num))
  (resids : value) (mkt expd : arr3) (sf : filt3) (ts : list value) (rngf : nat -> R)
  (fuel : nat) (m : maxent) :
  (n <= 0)%Z ->
  snd (fresh_sampling_run fuel dorw n (fixed_readers contacts hbonds resids mkt expd sf) ts
         (mkWorld m module_globals rngf 0)) = Raise (UnboundLocalError "radou_bc_sum").
Proof.
  intros Hn.
  assert (Hk : Z.to_nat n = 0%nat) by lia.
  destruct dorw; repeat (eval_control; first
    [ rewrite Hk
    | match goal with
      | |- context [ngt ?a ?b] => destruct (ngt a b)
      | |- context [nlt ?a ?b] => destruct (nlt a b)
      end ]); reflexivity.
Qed.

Lemma fresh_sampling_without_steps_witness :
  snd (fresh_sampling_run 10 true 0 small_readers [VNum (Fin 1)]
         (mkWorld (mkMaxEnt [] None None None) module_globals (fun _ => 9/10) 0)) =
    Raise (UnboundLocalError "radou_bc_sum").
Proof. apply fresh_sampling_without_steps. lia. Defined.

(** X17: in a fresh run with MC sampling, no reweighting and at least
    one step, [sample_parameters_MC] raises [UnboundLocalError] on
    [total_bc] in the accumulation closure of the first step (or the
    model's [Diverge] when the fuel of a resampling loop runs out). *)
Theorem fresh_sampling_without_reweighting (n : Z) (contacts hbonds : list (list num))
  (resids : value) (mkt expd : arr3) (sf : filt3) (ts : list value) (rngf : nat -> R)
  (fuel : nat) (m : maxent) :
  (1 <= n)%Z ->
  let e := snd (fresh_sampling_run fuel false n (fixed_readers contacts hbonds resids mkt expd sf)
                  ts (mkWorld m module_globals rngf 0)) in
  e = Raise (UnboundLocalError "total_bc") \/ e = Raise Diverge.
Proof.
  intros Hn e. subst e.
  assert (Hk : exists k, Z.to_nat n = S k) by (exists (Z.to_nat n - 1)%nat; lia).
  destruct Hk as [k Hk].
  repeat (eval_control; first
    [ rewrite Hk
    | match goal with
      | |- context [generate_trial_betas ?f ?a ?b ?w] =>
          destruct (generate_trial_betas_spec f a b (Fin (/10)) (Fin 16) (Fin (3/2)) w
                      eq_refl eq_refl eq_refl) as [j [E|E]]; rewrite E
      | |- context [ngt ?a ?b] => destruct (ngt a b)
      | |- context [nlt ?a ?b] => destruct (nlt a b)
      end ]).
  all: first [left; reflexivity | right; reflexivity].
Qed.

Lemma fresh_sampling_without_reweighting_witness :
  let e := snd (fresh_sampling_run 10 false 3 small_readers [VNum (Fin 1)]
                  (mkWorld (mkMaxEnt [] None None None) module_globals (fun _ => 9/10) 0)) in
  e = Raise (UnboundLocalError "total_bc") \/ e = Raise Diverge.
Proof. apply fresh_sampling_without_reweighting. lia. Defined.

(** The parts of the world an action leaves as they were: everything but
    the entries [keys] of [runvalues]. *)
Definition same_except (keys : list string) (w w' : world) : Prop :=
  methodparams (self w') = methodparams (self w) /\
  runparams (self w') = runparams (self w) /\
  mcsamplvalues (self w') = mcsamplvalues (self w) /\
  globals w' = globals w /\ rng w' = rng w /\ rng_pos w' = rng_pos w /\
  forall k, ~ In k keys ->
    option_map (dict_lookup k) (runvalues (self w')) =
    option_map (dict_lookup k) (runvalues (self w)).

Definition frame {A} (keys : list string) (m : M A) : Prop :=
  forall w, same_except keys w (fst (m w)).

Lemma same_except_refl keys w : same_except keys w w.
Proof. repeat split; auto. Qed.

Lemma same_except_trans keys w1 w2 w3 :
  same_except keys w1 w2 -> same_except keys w2 w3 -> same_except keys w1 w3.
Proof.
  intros (A1 & B1 & C1 & D1 & E1 & F1 & G1) (A2 & B2 & C2 & D2 & E2 & F2 & G2).
  repeat split; try congruence.
  intros k Hk. rewrite G2, G1 by exact Hk. reflexivity.
Qed.

Lemma frame_ret {A} keys (a : A) : frame keys (ret a).
Proof. intros w. apply same_except_refl. Qed.

Lemma frame_raise {A} keys e : frame keys (@raise A e).
Proof. intros w. apply same_except_refl. Qed.

Lemma frame_bind {A B} keys (m : M A) (f : A -> M B) :
  frame keys m -> (forall a, frame keys (f a)) -> frame keys (bind m f).
Proof.
  intros Hm Hf w. unfold bind. specialize (Hm w).
  destruct (m w) as [w1 [a|e]]; cbn in *; [|exact Hm].
  eapply same_except_trans; [exact Hm|apply Hf].
Qed.

Lemma frame_get_self keys : frame keys get_self.
Proof. intros w. apply same_except_refl. Qed.

Lemma frame_from_opt {A} keys (o : option A) e : frame keys (from_opt o e).
Proof. destruct o; [apply frame_ret|apply frame_raise]. Qed.

Lemma frame_rv_set keys k v : In k keys -> frame keys (rv_set k v).
Proof.
  intros Hk w. unfold rv_set, bind, get_self, from_opt.
  destruct (runvalues (self w)) as [d|] eqn:E;
    cbn [ret raise fst modify_self]; [|apply same_except_refl].
  repeat split; try reflexivity.
  intros k' Hk'. rewrite E. cbn [self runvalues option_map]. rewrite dict_lookup_set.
  destruct (String.eqb_spec k' k); [subst; contradiction|reflexivity].
Qed.

Ltac frame_tac :=
  repeat match goal with
         | |- frame _ (bind _ _) => apply frame_bind; intros
         | |- frame _ (ret _) => apply frame_ret
         | |- frame _ (raise _) => apply frame_raise
         | |- frame _ get_self => apply frame_get_self
         | |- frame _ (from_opt _ _) => apply frame_from_opt
         | |- frame _ (rv_set _ _) => apply frame_rv_set; cbn; tauto
         | |- frame _ (if ?b then _ else _) => destruct b
         | |- frame _ (match ?x with _ => _ end) => destruct x
         | |- frame _ _ =>
             progress unfold rv_get, mp_get, rp_get, mc_get,
               as_num, as_bool, as_int, as_vec, as_mat, as_arr3, as_filt, py_len
         end.

(** X18: [update_dfracs_and_mse] writes only the run values
    [curr_residue_dfracs], [curr_segment_dfracs] and [curr_MSE]: method
    parameters, run parameters, MC values, module globals, the random
    stream and every other run value are left as they were, also when it
    raises. *)
Theorem update_dfracs_and_mse_frame :
  frame ["curr_residue_dfracs"; "curr_segment_dfracs"; "curr_MSE"] update_dfracs_and_mse.
Proof. unfold update_dfracs_and_mse. frame_tac. Qed.

(** X19: [update_lnpi_and_weights] writes only the run values [lnpi],
    [currweights], [ave_lnpi], [sigma_lnpi] and [ave_sigma_lnpi]; everything
    else is left as it was, also when it raises. *)
Theorem update_lnpi_and_weights_frame :
  frame ["lnpi"; "currweights"; "ave_lnpi"; "sigma_lnpi"; "ave_sigma_lnpi"]
        update_lnpi_and_weights.
Proof. unfold update_lnpi_and_weights. frame_tac. Qed.

Lemma assign_globals_lookup (ns : list string) :
  forall (vs : list value) (w : world) (k : string),
  NoDup ns -> length vs = length ns ->
  exists g, assign_globals ns vs w = (mkWorld (self w) g (rng w) (rng_pos w), Ok tt) /\
    (forall i, nth_error ns i = Some k -> dict_lookup k g = nth_error vs i) /\
    (~ In k ns -> dict_lookup k g = dict_lookup k (globals w)).
Proof.
  induction ns as [|n ns IH]; intros vs w k Hnd Hlen.
  - exists (globals w). split; [destruct w; reflexivity|].
    split; [intros [|i] Hi; discriminate|reflexivity].
  - destruct vs as [|v vs]; [discriminate|].
    inversion Hnd as [|? ? Hn Hnd']; subst.
    cbn [assign_globals]. unfold bind at 1. unfold set_global at 1.
    destruct (IH vs (mkWorld (self w) (dict_set n v (globals w)) (rng w) (rng_pos w)) k Hnd'
                ltac:(cbn in Hlen; lia)) as [g [E [Hin Hout]]].
    exists g. rewrite E. split; [reflexivity|]. cbn [globals] in Hout. split.
    + intros [|i] Hi; cbn in Hi.
      * injection Hi as <-. rewrite Hout by exact Hn.
        rewrite dict_lookup_set, String.eqb_refl. reflexivity.
      * apply Hin. exact Hi.
    + intros Hk. rewrite Hout by (intros H; apply Hk; right; exact H).
      rewrite dict_lookup_set.
      destruct (String.eqb_spec k n) as [->|]; [exfalso; apply Hk; left; reflexivity|reflexivity].
Qed.

Definition readonly {A} (m : M A) : Prop := forall w, fst (m w) = w.

Lemma readonly_bind {A B} (m : M A) (f : A -> M B) :
  readonly m -> (forall a, readonly (f a)) -> readonly (bind m f).
Proof.
  intros Hm Hf w. unfold bind. specialize (Hm w).
  destruct (m w) as [w1 [a|e]]; cbn in *; [rewrite Hf|]; exact Hm.
Qed.

Lemma readonly_rp_get k : readonly (rp_get k).
Proof.
  intros w. unfold rp_get, bind, get_self, from_opt.
  destruct (runparams (self w)) as [d|]; cbn [ret raise]; [destruct (dict_lookup k d)|];
    reflexivity.
Qed.

Lemma readonly_load_global n : readonly (load_global n).
Proof. intros w. unfold load_global. destruct (dict_lookup n (globals w)); reflexivity. Qed.

Lemma readonly_ret {A} (a : A) : readonly (ret a).
Proof. intros w. reflexivity. Qed.

Lemma restart_names_NoDup : NoDup restart_names.
Proof.
  unfold restart_names.
  repeat constructor; cbn; intros H; repeat destruct H as [H|H]; try discriminate; exact H.
Qed.

Lemma setup_restart_tail_readonly :
  readonly (rp_get "out_prefix" ;;;
    load_global "T" ;;; load_global "kT" ;;; load_global "tol" ;;;
    load_global "Bc" ;;; load_global "Bh" ;;; load_global "gamma" ;;;
    load_global "ratef" ;;; load_global "nframes" ;;;
    rp_get "out_prefix" ;;; rp_get "out_prefix" ;;; rp_get "out_prefix" ;;;
    ret tt).
Proof.
  repeat (apply readonly_bind; [first [apply readonly_rp_get | apply readonly_load_global]|intros _]).
  apply readonly_ret.
Qed.

(** X20: [setup_restart] on a 28-tuple binds the module global named by
    each of the 28 restart names to the matching value of the tuple, leaves
    the other globals as they were and leaves [self] and the random stream
    untouched, whether it then returns or raises. *)
Theorem setup_restart_binds_globals (payload : list value) (w : world) :
  length payload = length restart_names ->
  let w' := fst (setup_restart payload w) in
  self w' = self w /\ rng_pos w' = rng_pos w /\
  (forall i k, nth_error restart_names i = Some k ->
     dict_lookup k (globals w') = nth_error payload i) /\
  (forall k, ~ In k restart_names -> dict_lookup k (globals w') = dict_lookup k (globals w)).
Proof.
  intros Hlen w'.
  assert (Hw' : forall k, exists g,
    w' = mkWorld (self w) g (rng w) (rng_pos w) /\
    (forall i, nth_error restart_names i = Some k -> dict_lookup k g = nth_error payload i) /\
    (~ In k restart_names -> dict_lookup k g = dict_lookup k (globals w))).
  { intros k.
    destruct (assign_globals_lookup restart_names payload w k restart_names_NoDup Hlen)
      as [g [E [Hin Hout]]].
    exists g. split; [|split; assumption].
    subst w'. unfold setup_restart, bind at 1.
    rewrite Hlen, Nat.eqb_refl, E. apply setup_restart_tail_readonly. }
  split; [|split; [|split]].
  - destruct (Hw' "") as [g [-> _]]. reflexivity.
  - destruct (Hw' "") as [g [-> _]]. reflexivity.
  - intros i k Hi. destruct (Hw' k) as [g [-> [Hin _]]]. apply Hin. exact Hi.
  - intros k Hk. destruct (Hw' k) as [g [-> [_ Hout]]]. apply Hout. exact Hk.
Qed.

Lemma setup_restart_binds_globals_witness :
  let w' := fst (setup_restart checkpoint_payload restart_world) in
  self w' = self restart_world /\ rng_pos w' = rng_pos restart_world /\
  (forall i k, nth_error restart_names i = Some k ->
     dict_lookup k (globals w') = nth_error checkpoint_payload i) /\
  (forall k, ~ In k restart_names ->
     dict_lookup k (globals w') = dict_lookup k (globals restart_world)).
Proof. apply setup_restart_binds_globals. reflexivity. Defined.

(** X21: [setup_restart] on a 28-tuple, with [out_prefix] set and no
    module global [T], raises [NameError] on [T], which it reads but never
    assigns. *)
Theorem setup_restart_needs_T (payload : list value) (w : world) (p : dict) (o : value) :
  length payload = length restart_names ->
  runparams (self w) = Some p -> dict_lookup "out_prefix" p = Some o ->
  dict_lookup "T" (globals w) = None ->
  snd (setup_restart payload w) = Raise (NameError "T").
Proof.
  intros Hlen Hp Ho HT.
  destruct (assign_globals_lookup restart_names payload w "T" restart_names_NoDup Hlen)
    as [g [E [_ Hout]]].
  assert (HTg : dict_lookup "T" g = None).
  { rewrite Hout, HT; [reflexivity|].
    unfold restart_names; cbn; intros H; repeat destruct H as [H|H]; try discriminate; exact H. }
  unfold setup_restart, bind at 1. rewrite Hlen, Nat.eqb_refl, E.
  unfold rp_get, get_self, from_opt, bind. cbn [self]. rewrite Hp. cbn [ret]. rewrite Ho.
  unfold ret, load_global. cbn [globals]. rewrite HTg. reflexivity.
Qed.

Lemma setup_restart_needs_T_witness :
  snd (setup_restart checkpoint_payload restart_world) = Raise (NameError "T").
Proof.
  apply (setup_restart_needs_T _ _
           [("gamma", VNum (Fin (/100))); ("out_prefix", VStr "reweighting_")]
           (VStr "reweighting_")); reflexivity.
Defined.
